(** * performance_quyca: URL generator, latency sampler and offline reporter

    A shallow embedding of the three scripts of the repository

    - [api_expert/build_url.py]     (module [BuildUrl]),
    - [api_expert/response_time.py] (module [ResponseTime]),
    - [report.py]                   (module [Report]),

    together with the Python string built-ins they rely on (module [PyStr]).

    Conventions.  Python [str] is [string]; a Python [float] holding a number
    of seconds is an exact rational ([Q]); a [dict] is a [gmap]; the random
    source and the HTTP service are explicit oracles threaded through the
    code that consults them; an exception is a value of an error type. *)

From Stdlib Require Import String Ascii List ZArith QArith Qabs Lia Bool.
From Stdlib Require Import DecimalString DecimalNat.
From stdpp Require Import gmap strings.

Import ListNotations.
Open Scope string_scope.

(** stdpp freezes [String.append]; the proofs below compute with it. *)
Arguments String.append !s1 s2 : simpl nomatch.

(* ===================================================================== *)
(** * Python string built-ins *)
(* ===================================================================== *)

Module PyStr.

(** [sub in s]: [sub] occurs in [s] as a contiguous substring. *)
Fixpoint str_in (sub s : string) : bool :=
  String.prefix sub s ||
  match s with
  | EmptyString => false
  | String _ s' => str_in sub s'
  end.

(** The scan behind [s.replace(old, new)] for a non-empty [old]: left to
    right, non-overlapping.  [skip] counts the characters of a match that are
    still to be dropped. *)
Fixpoint replace_from (old new s : string) (skip : nat) : string :=
  match s with
  | EmptyString => EmptyString
  | String c s' =>
      match skip with
      | S k => replace_from old new s' k
      | O =>
          if String.prefix old s
          then new ++ replace_from old new s' (String.length old - 1)
          else String c (replace_from old new s' 0)
      end
  end.

(** With an empty [old], Python puts [new] before every character and at the
    end. *)
Fixpoint intersperse (new s : string) : string :=
  match s with
  | EmptyString => new
  | String c s' => new ++ String c (intersperse new s')
  end.

(** [s.replace(old, new)] *)
Definition replace (s old new : string) : string :=
  match old with
  | EmptyString => intersperse new s
  | String _ _ => replace_from old new s 0
  end.

(** The scan behind [s.split(sep)] for a non-empty [sep]; the head of the
    result is the piece under construction. *)
Fixpoint split_from (sep s : string) (skip : nat) : list string :=
  match s with
  | EmptyString => [EmptyString]
  | String c s' =>
      match skip with
      | S k => split_from sep s' k
      | O =>
          if String.prefix sep s
          then EmptyString :: split_from sep s' (String.length sep - 1)
          else
            match split_from sep s' 0 with
            | piece :: pieces => String c piece :: pieces
            | [] => [String c EmptyString]
            end
      end
  end.

(** [s.split(sep)]; [None] is the [ValueError] of an empty separator. *)
Definition split (s sep : string) : option (list string) :=
  match sep with
  | EmptyString => None
  | String _ _ => Some (split_from sep s 0)
  end.

(** [s.count(c)] for a one-character pattern. *)
Fixpoint count_char (c : ascii) (s : string) : nat :=
  match s with
  | EmptyString => 0
  | String d s' => (if Ascii.eqb c d then 1 else 0) + count_char c s'
  end.

(** The characters of a string, for character-wise side conditions. *)
Fixpoint chars (s : string) : list ascii :=
  match s with
  | EmptyString => []
  | String c s' => c :: chars s'
  end.

(** No character of [s] is [c]. *)
Definition free_of (c : ascii) (s : string) : bool :=
  forallb (fun d => negb (Ascii.eqb c d)) (chars s).

End PyStr.

(* ===================================================================== *)
(** * Python number formatting and parsing *)
(* ===================================================================== *)

Module PyNum.

(** The character of a decimal digit, and back. *)
Definition digit_char (d : N) : ascii := ascii_of_N (48 + d).

Definition digit_of_char (c : ascii) : option N :=
  let n := N_of_ascii c in
  if ((48 <=? n) && (n <=? 57))%N then Some (n - 48)%N else None.

(** Decimal digits of [n], most significant first, put in front of [acc]. *)
Fixpoint digits_of (fuel : nat) (n : N) (acc : string) : string :=
  match fuel with
  | O => acc
  | S fuel' =>
      let acc' := String (digit_char (n mod 10)) acc in
      if (n <? 10)%N then acc' else digits_of fuel' (n / 10) acc'
  end.

(** [str(n)] for a natural number: the binary size bounds the digits. *)
Definition string_of_N (n : N) : string :=
  digits_of (S (N.to_nat (N.log2 n))) n EmptyString.

(** [str(z)] for an integer. *)
Definition string_of_Z (z : Z) : string :=
  ((if (z <? 0)%Z then "-" else "") ++ string_of_N (Z.abs_N z))%string.

(** The integer nearest to [q], ties going to the even one: the rounding of
    Python's float formatting. *)
Definition round_half_even (q : Q) : Z :=
  let d := Zpos (Qden q) in
  let fl := (Qnum q / d)%Z in
  let r := (Qnum q mod d)%Z in
  if (2 * r <? d)%Z then fl
  else if (d <? 2 * r)%Z then (fl + 1)%Z
  else if Z.even fl then fl else (fl + 1)%Z.

(** The three digits after the point, for a count of thousandths. *)
Definition frac3 (a : N) : string :=
  String (digit_char ((a / 100) mod 10))
    (String (digit_char ((a / 10) mod 10))
       (String (digit_char (a mod 10)) EmptyString)).

(** [f"{q:.3f}"] *)
Definition format_3f (q : Q) : string :=
  let a := Z.abs_N (round_half_even (q * 1000)%Q) in
  ((if (Qnum q <? 0)%Z then "-" else "") ++
   string_of_N (a / 1000) ++ "." ++ frac3 a)%string.

(** The value of a run of decimal digits read after the value [acc];
    [None] on any other character. *)
Fixpoint digits_value (s : string) (acc : N) : option N :=
  match s with
  | EmptyString => Some acc
  | String c s' =>
      match digit_of_char c with
      | Some d => digits_value s' (10 * acc + d)%N
      | None => None
      end
  end.

(** An unsigned decimal numeral [digits] or [digits.digits]. *)
Definition parse_unsigned (s : string) : option Q :=
  match PyStr.split s "." with
  | Some [ip] =>
      match ip, digits_value ip 0 with
      | String _ _, Some n => Some (Z.of_N n # 1)%Q
      | _, _ => None
      end
  | Some [ip; fp] =>
      match ip, digits_value (ip ++ fp) 0 with
      | String _ _, Some n => Some (Z.of_N n # Z.to_pos (10 ^ Z.of_nat (String.length fp)))%Q
      | _, _ => None
      end
  | _ => None
  end.

(** The decimal numerals the float parser of [pd.read_csv] is given here:
    an optional minus sign and an unsigned numeral.  [None] stands for a
    cell that is not such a numeral. *)
Definition parse_decimal (s : string) : option Q :=
  match s with
  | String "-" s' =>
      match parse_unsigned s' with
      | Some q => Some (- q)%Q
      | None => None
      end
  | _ => parse_unsigned s
  end.

(** A decimal digit, and a run of decimal digits. *)
Definition is_digit (c : ascii) : bool :=
  match digit_of_char c with
  | Some _ => true
  | None => false
  end.

Definition all_digits (s : string) : bool := forallb is_digit (PyStr.chars s).

(** The number a text written by [format_3f] denotes: the count of
    thousandths nearest to the number, over 1000. *)
Definition stored_time (q : Q) : Q := (round_half_even (q * 1000) # 1000)%Q.

End PyNum.

(* ===================================================================== *)
(** * report.py: the derivations of the offline reporter *)
(* ===================================================================== *)

Module Report.
Import PyStr.

(** [extract_base_endpoint]: [endpoint.split('?')[0]] *)
Definition extract_base_endpoint (endpoint : string) : string :=
  match split endpoint "?" with
  | Some (piece :: _) => piece
  | _ => EmptyString
  end.

(** [categorize_endpoint] *)
Definition categorize_endpoint (endpoint : string) : string :=
  if str_in "search" endpoint then "search"
  else if str_in "person" endpoint && negb (str_in "apc" endpoint) then "person"
  else if str_in "affiliation" endpoint && negb (str_in "apc" endpoint) then "affiliation"
  else if str_in "apc" endpoint then "apc"
  else "other".

(** [extract_keyword]; an [IndexError] of either subscript would be swallowed
    by the bare [except] and turned into [None]. *)
Definition extract_keyword (endpoint : string) : option string :=
  if str_in "keywords=" endpoint then
    match split endpoint "keywords=" with
    | Some (_ :: after :: _) =>
        match split after "&" with
        | Some (keyword :: _) => Some keyword
        | _ => None
        end
    | _ => None
    end
  else None.

(** A row of the CSV as [pd.read_csv] delivers it. *)
Record measurement := Measurement {
  url : string;
  average_time : Q
}.

(** A row of the data frame [load_and_clean_data] returns. *)
Record clean_row := CleanRow {
  row_url : string;
  row_average_time : Q;
  clean_endpoint : string;
  response_time_ms : Q;
  base_endpoint : string;
  endpoint_type : string;
  has_parameters : bool;
  keyword : option string;
  endpoint_depth : nat
}.

(** The pattern of the [str.replace(..., regex=True)] call holds no regular
    expression metacharacter, so the call replaces the literal text. *)
Definition API_PREFIX : string := "http://localhost:8010/api/".

(** [pd.read_csv(file_path)] on the text of the file, for the part of the
    CSV grammar the sampler writes: lines ended by CR LF, blank lines
    skipped, cells separated by commas, the first line naming the columns,
    and no quoted cell.  The columns are found by name.  A cell of the
    [url] column is read as the text it is when it is made of printable
    ASCII characters and holds a [':'] ([text_cell]): no missing-value
    marker of pandas ([NA], [null], [None], the empty cell and the like),
    no number and no truth value holds a [':'], so such a cell is never
    turned into [NaN] and never makes the column numeric.  [None] stands
    for a text outside that part, and for a table on which the column
    accesses of [load_and_clean_data] would raise. *)
Definition line_end : string := String "013" (String "010" EmptyString).

Definition split_pieces (s sep : string) : list string :=
  match split s sep with
  | Some pieces => pieces
  | None => []
  end.

Fixpoint column_index (name : string) (columns : list string) : option nat :=
  match columns with
  | [] => None
  | c :: rest =>
      if String.eqb c name then Some 0
      else option_map S (column_index name rest)
  end.

(** A printable ASCII character, and a cell of the [url] column that is
    read as text. *)
Definition printable (c : ascii) : bool :=
  let n := N_of_ascii c in ((32 <=? n) && (n <=? 126))%N.

Definition text_cell (cell : string) : bool :=
  str_in ":" cell && forallb printable (chars cell).

Definition read_row (n i j : nat) (line : string) : option measurement :=
  let cells := split_pieces line "," in
  if Nat.eqb (List.length cells) n then
    match nth_error cells i, nth_error cells j with
    | Some u, Some t =>
        if text_cell u then
          match PyNum.parse_decimal t with
          | Some q => Some (Measurement u q)
          | None => None
          end
        else None
    | _, _ => None
    end
  else None.

Fixpoint read_rows (n i j : nat) (lines : list string) : option (list measurement) :=
  match lines with
  | [] => Some []
  | line :: rest =>
      match read_row n i j line, read_rows n i j rest with
      | Some m, Some ms => Some (m :: ms)
      | _, _ => None
      end
  end.

Definition read_csv (text : string) : option (list measurement) :=
  if free_of "034" text then
    match List.filter (fun l => negb (String.eqb l EmptyString))
                      (split_pieces text line_end) with
    | [] => None
    | header :: lines =>
        let columns := split_pieces header "," in
        match column_index "url" columns, column_index "average_time" columns with
        | Some i, Some j => read_rows (List.length columns) i j lines
        | _, _ => None
        end
    end
  else None.

(** The column assignments of [load_and_clean_data], row by row.  The
    product [average_time * 1000] is the exact one, where Python rounds it
    to a float: no theorem relies on its being exact. *)
Definition clean_measurement (m : measurement) : clean_row :=
  let ce := replace (url m) API_PREFIX "" in
  {| row_url := url m;
     row_average_time := average_time m;
     clean_endpoint := ce;
     response_time_ms := (average_time m * 1000)%Q;
     base_endpoint := extract_base_endpoint ce;
     endpoint_type := categorize_endpoint ce;
     has_parameters := str_in "?" ce;
     keyword := extract_keyword ce;
     endpoint_depth := count_char "/" ce + 1 |}.

(** [load_and_clean_data(file_path)] on the text of the file. *)
Definition load_and_clean_data (text : string) : option (list clean_row) :=
  option_map (List.map clean_measurement) (read_csv text).

End Report.

(* ===================================================================== *)
(** * Exceptions and results shared by the two api_expert scripts *)
(* ===================================================================== *)

Module Py.

(** The exception classes the scripts can meet.  The first four belong to
    the hierarchy rooted at [requests.exceptions.RequestException]; the
    others are built-ins outside of it. *)
Inductive exn_class :=
| RequestException
| Timeout
| ConnectionError
| InvalidURL
| IndexError
| ValueError
| RuntimeError.

(** [issubclass(c, requests.exceptions.RequestException)] *)
Definition is_RequestException (c : exn_class) : bool :=
  match c with
  | RequestException | Timeout | ConnectionError | InvalidURL => true
  | IndexError | ValueError | RuntimeError => false
  end.

Record exception := Exception {
  exn_cls : exn_class;
  exn_msg : string
}.

(** A computation either returns a value or raises. *)
Inductive result (A : Type) :=
| Returns (a : A)
| Raises (e : exception).
Arguments Returns {A} a.
Arguments Raises {A} e.

Definition bind {A B} (r : result A) (k : A -> result B) : result B :=
  match r with
  | Returns a => k a
  | Raises e => Raises e
  end.

End Py.

(* ===================================================================== *)
(** * api_expert/build_url.py: the URL generator *)
(* ===================================================================== *)

Module BuildUrl.
Import PyStr Py.

(** ** The generator over arbitrary tables *)

Section Generator.

(** The module-level tables. *)
Variable BASE_URL : string.
Variable AFFILIATION_TYPES AFFILIATION_IDS PERSON_IDS : list string.
Variable KEYWORDS : gmap string (list string).

(** The random source: [rnd k] is the raw value of the [k]-th draw. *)
Variable rnd : nat -> nat.

(** A step of the generator reads the number of draws made so far and
    returns the new one, or raises. *)
Definition gen (A : Type) : Type := nat -> result (A * nat).

Definition ret {A} (a : A) : gen A := fun k => Returns (a, k).

Definition gbind {A B} (m : gen A) (f : A -> gen B) : gen B :=
  fun k => bind (m k) (fun '(a, k') => f a k').

(** The element [random.choice] would return for a raw draw. *)
Definition pick (k : nat) (seq : list string) : string :=
  nth (rnd k mod List.length seq) seq EmptyString.

(** [random.choice(seq)]: an [IndexError] on an empty sequence. *)
Definition random_choice (seq : list string) : gen string :=
  fun k =>
    match seq with
    | [] => Raises (Exception IndexError "Cannot choose from an empty sequence")
    | _ :: _ => Returns (pick k seq, S k)
    end.

(** The body of the [for endpoint in RAW_ENDPOINTS] loop: the URLs one
    template appends. *)
Definition expand_endpoint (endpoint : string) : gen (list string) :=
  if str_in "<affiliation_type>" endpoint && str_in "<affiliation_id>" endpoint then
    ret (List.map
           (fun '(affiliation_type, affiliation_id) =>
              BASE_URL ++
              replace (replace endpoint "<affiliation_type>" affiliation_type)
                      "<affiliation_id>" affiliation_id)
           (list_prod AFFILIATION_TYPES (firstn 3 AFFILIATION_IDS)))
  else if str_in "<affiliation_id>" endpoint then
    ret (List.map
           (fun affiliation_id =>
              BASE_URL ++ replace endpoint "<affiliation_id>" affiliation_id)
           (firstn 3 AFFILIATION_IDS))
  else if str_in "<person_id>" endpoint then
    ret (List.map
           (fun person_id => BASE_URL ++ replace endpoint "<person_id>" person_id)
           (firstn 3 PERSON_IDS))
  else if str_in "<affiliation_type>" endpoint then
    ret (List.map
           (fun affiliation_type =>
              BASE_URL ++ replace endpoint "<affiliation_type>" affiliation_type)
           AFFILIATION_TYPES)
  else
    match KEYWORDS !! endpoint with
    | Some keywords =>
        gbind (random_choice keywords)
              (fun keyword => ret [BASE_URL ++ endpoint ++ "?keywords=" ++ keyword])
    | None => ret [BASE_URL ++ endpoint]
    end.

(** The loop itself, appending to [urls] in template order. *)
Fixpoint expand_loop (endpoints : list string) (urls : list string)
  : gen (list string) :=
  match endpoints with
  | [] => ret urls
  | endpoint :: rest =>
      gbind (expand_endpoint endpoint)
            (fun new => expand_loop rest (urls ++ new))
  end.

End Generator.

(** ** The tables of the script *)

Definition BASE_URL : string := "http://localhost:8010".

Definition RAW_ENDPOINTS : list string :=
  [ "/api/affiliation/<affiliation_type>/<affiliation_id>/research/products";
    "/api/apc/affiliation/<affiliation_id>";
    "/api/apc/person/<person_id>";
    "/api/apc/search";
    "/api/person/<person_id>";
    "/api/person/<person_id>/research/products";
    "/api/person/<person_id>/research/news";
    "/api/search/affiliations/<affiliation_type>";
    "/api/search/person";
    "/api/search/works" ].

Definition AFFILIATION_IDS : list string :=
  [ "01p9nak43"; "04j43p132"; "027nnzv91"; "059d6yn51"; "0374c0d66";
    "006703856"; "057jm7w82"; "05sq6ae13"; "05w5shm69"; "03ag0xf08" ].

Definition PERSON_IDS : list string :=
  [ "A5105622035"; "A5112693177"; "0000000347185957"; "A5113454003";
    "A5092999615"; "0000000294031566"; "A5106325669"; "0001513368";
    "A5041111652"; "Gwak4WYAAAAJ'" ].

Definition AFFILIATION_TYPES : list string := [ "institution" ].

Definition KEYWORDS : gmap string (list string) :=
  <[ "/api/search/affiliations" := ["university"; "andes"; "antioquia"; "open"] ]>
  (<[ "/api/search/person" := ["esteban"; "alejandra"; "jaime"; "garcia"] ]>
  (<[ "/api/search/works" := ["ciencia"; "data"; "ai"; "salud"] ]>
  (<[ "/api/apc/search" := ["500"; "1000"; "1500"; "2000"] ]> ∅))).

(** [expand_endpoints()], given the random source, from [draw] draws on. *)
Definition expand_endpoints_from (rnd : nat -> nat) : gen (list string) :=
  expand_loop BASE_URL AFFILIATION_TYPES AFFILIATION_IDS PERSON_IDS KEYWORDS rnd
              RAW_ENDPOINTS [].

(** [expand_endpoints()] at the start of a process. *)
Definition expand_endpoints (rnd : nat -> nat) : result (list string) :=
  bind (expand_endpoints_from rnd 0) (fun '(urls, _) => Returns urls).

End BuildUrl.

(* ===================================================================== *)
(** * api_expert/response_time.py: the latency sampler and its caller *)
(* ===================================================================== *)

Module ResponseTime.
Import PyStr Py PyNum.

(** ** The world the script runs in *)

(** What one [requests.get(url, timeout=30)] does: it returns a response,
    after [elapsed] seconds on the performance counter, or it raises. *)
Inductive reply :=
| Response (elapsed : Q) (status_code : Z)
| Failure (e : exception).

(** The state of a run: requests issued so far, lines printed so far. *)
Record world := World {
  requests_sent : nat;
  stdout : list string
}.

Definition io (A : Type) : Type := world -> result (A * world).

Definition ret {A} (a : A) : io A := fun w => Returns (a, w).

Definition iobind {A B} (m : io A) (f : A -> io B) : io B :=
  fun w => bind (m w) (fun '(a, w') => f a w').

Notation "'let!' x ':=' m 'in' k" := (iobind m (fun x => k))
  (at level 10, x name, m at level 100, k at level 200).

(** [print(line)] *)
Definition print (line : string) : io unit :=
  fun w => Returns (tt, {| requests_sent := requests_sent w;
                           stdout := stdout w ++ [line] |}).

Section Sampler.

(** The HTTP service: the reply to the request issued after [n] earlier
    ones, for a URL. *)
Variable service : nat -> string -> reply.

(** [requests.get(url, timeout=30)], timed by the two readings of
    [time.perf_counter()] around it. *)
Definition timed_get (url : string) : world -> reply * world :=
  fun w => (service (requests_sent w) url,
            {| requests_sent := S (requests_sent w); stdout := stdout w |}).

(** [sum(times)]: from 0, left to right. *)
Definition sum (times : list Q) : Q := fold_left Qplus times 0%Q.

(** [len(times)] as the divisor of a float division. *)
Definition len (times : list Q) : Q := inject_Z (Z.of_nat (List.length times)).

(** The [for i in range(repetitions)] loop of [measure_response_time],
    over what is left of the range. *)
Fixpoint measure_loop (url : string) (repetitions : nat) (range : list nat)
    (times : list Q) : io (list Q) :=
  match range with
  | [] => ret times
  | i :: rest =>
      fun w =>
        match timed_get url w with
        | (Response elapsed status_code, w1) =>
            (let! _ := print ("[" ++ string_of_N (N.of_nat (i + 1)) ++ "/" ++
                              string_of_N (N.of_nat repetitions) ++ "] " ++ url ++
                              " -> " ++ format_3f elapsed ++ "s (status " ++
                              string_of_Z status_code ++ ")") in
             measure_loop url repetitions rest (times ++ [elapsed])) w1
        | (Failure e, w1) =>
            if is_RequestException (exn_cls e) then
              (let! _ := print ("Error con " ++ url ++ ": " ++ exn_msg e) in
               measure_loop url repetitions rest times) w1
            else Raises e
        end
  end.

(** [measure_response_time(url, repetitions)]; [None] is Python's [None]. *)
Definition measure_response_time (url : string) (repetitions : nat)
  : io (option Q) :=
  let! times := measure_loop url repetitions (seq 0 repetitions) [] in
  ret (match times with
       | [] => None
       | _ :: _ => Some (sum times / len times)%Q
       end).

(** The default of the [repetitions] parameter. *)
Definition default_repetitions : nat := 3.

(** The [for endpoint in urls] loop of the script: one record per URL whose
    average is not [None]. *)
Fixpoint collect (urls : list string) (results : list (string * Q))
  : io (list (string * Q)) :=
  match urls with
  | [] => ret results
  | endpoint :: rest =>
      let! average_time := measure_response_time endpoint default_repetitions in
      match average_time with
      | Some t => collect rest (results ++ [(endpoint, t)])
      | None => collect rest results
      end
  end.

End Sampler.

(** ** Writing the CSV *)

Definition comma : ascii := ",".
Definition dquote : ascii := "034".
Definition CR : ascii := "013".
Definition LF : ascii := "010".
Definition CRLF : string := String CR (String LF EmptyString).

(** A cell is quoted when it holds the delimiter, the quote character or a
    character of the line terminator (the [csv] module's default,
    [QUOTE_MINIMAL]). *)
Definition needs_quote (cell : string) : bool :=
  negb (free_of comma cell && free_of dquote cell &&
        free_of CR cell && free_of LF cell).

Definition csv_cell (cell : string) : string :=
  if needs_quote cell then
    String dquote
      (replace cell (String dquote EmptyString)
                    (String dquote (String dquote EmptyString))
       ++ String dquote EmptyString)
  else cell.

(** [writer.writerow]: the cells, comma-separated, and the terminator. *)
Fixpoint join_cells (cells : list string) : string :=
  match cells with
  | [] => EmptyString
  | [cell] => csv_cell cell
  | cell :: rest => csv_cell cell ++ String comma (join_cells rest)
  end.

Definition csv_line (cells : list string) : string := join_cells cells ++ CRLF.

Definition fieldnames : list string := ["url"; "average_time"].

(** [writer.writeheader()] *)
Definition header_line : string := csv_line fieldnames.

(** The row written for one record: the average with three decimals. *)
Definition record_line (r : string * Q) : string :=
  csv_line [fst r; format_3f (snd r)].

(** [writer.writerows(...)]: one row after the other. *)
Fixpoint record_lines (results : list (string * Q)) : string :=
  match results with
  | [] => EmptyString
  | r :: rest => record_line r ++ record_lines rest
  end.

(** The [with open(..., "a")] block: the text of the file after it.  [None]
    is a file that does not exist ([os.path.isfile] false). *)
Definition append_results (file : option string) (results : list (string * Q))
  : string :=
  match file with
  | None => header_line ++ record_lines results
  | Some text => text ++ record_lines results
  end.

(** The summary printed at the end. *)
Fixpoint print_summary (results : list (string * Q)) : io unit :=
  match results with
  | [] => ret tt
  | r :: rest =>
      let! _ := print (fst r ++ " -> " ++ format_3f (snd r) ++ "s promedio") in
      print_summary rest
  end.

(** The script: the text of the CSV file and the printed lines it leaves, or
    the exception that ends it before the file is opened. *)
Definition main (rnd : nat -> nat) (service : nat -> string -> reply)
    (file : option string) : result (string * list string) :=
  bind (BuildUrl.expand_endpoints rnd) (fun urls =>
  bind (collect service urls [] (World 0 [])) (fun '(results, w) =>
  let text := append_results file results in
  bind ((let! _ := print (String LF "======== Resumen =======" ++
                          String LF EmptyString) in
         print_summary results) w) (fun '(_, w') =>
  Returns (text, stdout w')))).

End ResponseTime.

(* ===================================================================== *)
(** * Notions used to state the properties *)
(* ===================================================================== *)

(** None of what follows is code of the repository: these are the
    observations on runs that the theorems below are stated with. *)

Module BuildUrlObs.
Import PyStr Py BuildUrl.

(** The URL the dual-placeholder branch builds for a pair of samples. *)
Definition dual_url (base endpoint affiliation_type affiliation_id : string)
  : string :=
  base ++ replace (replace endpoint "<affiliation_type>" affiliation_type)
                  "<affiliation_id>" affiliation_id.

(** The keyword lists of the script, by name. *)
Definition APC_KEYWORDS : list string := ["500"; "1000"; "1500"; "2000"].
Definition PERSON_KEYWORDS : list string := ["esteban"; "alejandra"; "jaime"; "garcia"].
Definition WORKS_KEYWORDS : list string := ["ciencia"; "data"; "ai"; "salud"].
Definition AFFILIATIONS_KEYWORDS : list string := ["university"; "andes"; "antioquia"; "open"].

(** The list [expand_endpoints] computes, with the three drawn keywords left
    open. *)
Definition generated (apc person works : string) : list string :=
  [ "http://localhost:8010/api/affiliation/institution/01p9nak43/research/products";
    "http://localhost:8010/api/affiliation/institution/04j43p132/research/products";
    "http://localhost:8010/api/affiliation/institution/027nnzv91/research/products";
    "http://localhost:8010/api/apc/affiliation/01p9nak43";
    "http://localhost:8010/api/apc/affiliation/04j43p132";
    "http://localhost:8010/api/apc/affiliation/027nnzv91";
    "http://localhost:8010/api/apc/person/A5105622035";
    "http://localhost:8010/api/apc/person/A5112693177";
    "http://localhost:8010/api/apc/person/0000000347185957";
    "http://localhost:8010/api/apc/search?keywords=" ++ apc;
    "http://localhost:8010/api/person/A5105622035";
    "http://localhost:8010/api/person/A5112693177";
    "http://localhost:8010/api/person/0000000347185957";
    "http://localhost:8010/api/person/A5105622035/research/products";
    "http://localhost:8010/api/person/A5112693177/research/products";
    "http://localhost:8010/api/person/0000000347185957/research/products";
    "http://localhost:8010/api/person/A5105622035/research/news";
    "http://localhost:8010/api/person/A5112693177/research/news";
    "http://localhost:8010/api/person/0000000347185957/research/news";
    "http://localhost:8010/api/search/affiliations/institution";
    "http://localhost:8010/api/search/person?keywords=" ++ person;
    "http://localhost:8010/api/search/works?keywords=" ++ works ].

(** A URL the generator can return. *)
Definition generator_url (u : string) : Prop :=
  exists rnd urls, expand_endpoints rnd = Returns urls /\ In u urls.

End BuildUrlObs.

Module ResponseTimeObs.
Import PyStr Py PyNum ResponseTime.

(** A reply is request-level when it is a response or an exception of the
    [RequestException] hierarchy: what the [except] clause of the sampler
    names. *)
Definition request_level (r : reply) : bool :=
  match r with
  | Response _ _ => true
  | Failure e => is_RequestException (exn_cls e)
  end.

(** A failed attempt of the kind the sampler catches. *)
Definition request_failure (r : reply) : bool :=
  match r with
  | Response _ _ => false
  | Failure e => is_RequestException (exn_cls e)
  end.

(** The durations of the successful attempts, in order. *)
Fixpoint successes (replies : list reply) : list Q :=
  match replies with
  | [] => []
  | Response elapsed _ :: rest => elapsed :: successes rest
  | Failure _ :: rest => successes rest
  end.

(** The arithmetic mean of a list of durations. *)
Definition arithmetic_mean (ds : list Q) : Q :=
  (fold_right Qplus 0 ds / inject_Z (Z.of_nat (List.length ds)))%Q.

(** The replies to [k] consecutive requests for [url], the first of them
    issued after [n] earlier requests. *)
Fixpoint attempt_replies (service : nat -> string -> reply) (url : string)
    (n k : nat) : list reply :=
  match k with
  | O => []
  | S k' => service n url :: attempt_replies service url (S n) k'
  end.

(** What [measure_response_time] returns for a list of recorded times. *)
Definition average (times : list Q) : option Q :=
  match times with
  | [] => None
  | _ :: _ => Some (sum times / len times)%Q
  end.

(** Two services to run the sampler against: one whose second reply is a
    timeout and whose other replies take a tenth of a second more each
    time, and one that refuses every connection. *)
Definition flaky_service (n : nat) (url : string) : reply :=
  if Nat.eqb n 1 then Failure (Exception Timeout "Read timed out.")
  else Response (Z.of_nat (S n) # 10) 200.

Definition dead_service (n : nat) (url : string) : reply :=
  Failure (Exception ConnectionError "Connection refused").

End ResponseTimeObs.

Module CsvObs.
Import PyStr Py PyNum ResponseTime Report.

(** A cell the writer leaves unquoted. *)
Definition plain (cell : string) : bool := negb (needs_quote cell).

(** The file after a sequence of runs of the script, each appending the
    records it collected. *)
Definition accumulate (file : option string) (batches : list (list (string * Q)))
  : option string :=
  fold_left (fun f results => Some (append_results f results)) batches file.

(** The row of a record without its terminator. *)
Definition line_body (r : string * Q) : string :=
  csv_cell (fst r) ++ String comma (format_3f (snd r)).

(** What [pd.read_csv] makes of a record's row. *)
Definition stored (r : string * Q) : measurement :=
  Measurement (fst r) (stored_time (snd r)).

(** The text of the row of a record, character by character: the URL cell,
    a comma, the average with three decimals, CR LF. *)
Definition row_text (r : string * Q) : string :=
  csv_cell (fst r) ++ "," ++ format_3f (snd r) ++ CRLF.

(** The rows of a list of records, one after the other. *)
Definition rows_text (results : list (string * Q)) : string :=
  fold_right String.append "" (List.map row_text results).

(** The text the file starts with before the rows of a run: the old text,
    or the header row when there was no file. *)
Definition file_head (file : option string) : string :=
  match file with
  | None => "url,average_time" ++ CRLF
  | Some text => text
  end.

End CsvObs.

(* ===================================================================== *)
(** * report.py: the distribution of times and the slowest endpoints *)
(* ===================================================================== *)

Module ReportStats.
Import PyStr Report.

(** An edge of a bin of [pd.cut]: a number, or [float('inf')]. *)
Inductive edge :=
| Finite (q : Q)
| Infinity.

Definition edge_le (e : edge) (t : Q) : bool :=
  match e with
  | Finite q => Qle_bool q t
  | Infinity => false
  end.

Definition lt_edge (t : Q) (e : edge) : bool :=
  match e with
  | Finite q => negb (Qle_bool q t)
  | Infinity => true
  end.

(** [pd.cut(x, bins=bins, labels=labels, right=False)] for one value: the
    label of the bin, closed on the left and open on the right, that holds
    the value; [None] is the missing value of a number outside all bins. *)
Fixpoint cut (bins : list edge) (labels : list string) (t : Q) : option string :=
  match bins, labels with
  | lo :: (hi :: _) as rest, label :: labels' =>
      if edge_le lo t && lt_edge t hi then Some label else cut rest labels' t
  | _, _ => None
  end.

(** The bins and labels of [response_time_distribution]. *)
Definition bins : list edge :=
  [ Finite 0; Finite (5 # 100); Finite (1 # 10); Finite (5 # 10); Finite 1;
    Finite 5; Infinity ].

Definition labels : list string :=
  [ "0-50ms"; "50-100ms"; "100-500ms"; "500ms-1s"; "1-5s"; "5s+" ].

(** The [time_range] cell the function adds to a row. *)
Definition time_range (t : Q) : option string := cut bins labels t.

(** [value_counts().sort_index()] of a categorical column: every category,
    in the order of the categories, with the number of rows that hold it. *)
Definition count_label (label : string) (cells : list (option string)) : nat :=
  List.length
    (List.filter (fun c => match c with
                           | Some l => String.eqb l label
                           | None => false
                           end) cells).

(** [response_time_distribution(df)], on the [average_time] column. *)
Definition response_time_distribution (times : list Q) : list (string * nat) :=
  let cells := List.map time_range times in
  List.map (fun label => (label, count_label label cells)) labels.

(** The columns [find_slowest_endpoints] keeps of a row. *)
Definition slow_row : Type := string * Q * Q.

Definition project (row : clean_row) : slow_row :=
  (clean_endpoint row, row_average_time row, response_time_ms row).

(** [df.nlargest(n, 'average_time')]: the rows in decreasing order of the
    column, rows of equal value in their order in the table
    ([keep='first']), cut after [n] rows.  The order is built by
    insertion. *)
Fixpoint insert_desc (row : clean_row) (sorted : list clean_row) : list clean_row :=
  match sorted with
  | [] => [row]
  | r :: rest =>
      if Qle_bool (row_average_time r) (row_average_time row)
      then row :: sorted
      else r :: insert_desc row rest
  end.

Definition sort_desc (rows : list clean_row) : list clean_row :=
  fold_right insert_desc [] rows.

Definition nlargest (n : nat) (rows : list clean_row) : list clean_row :=
  firstn n (sort_desc rows).

(** [find_slowest_endpoints(df, n)] *)
Definition find_slowest_endpoints (rows : list clean_row) (n : nat) : list slow_row :=
  List.map project (nlargest n rows).

End ReportStats.

(* ===================================================================== *)
(** * Further notions used to state properties *)
(* ===================================================================== *)

Module SamplerObs.
Import PyStr Py PyNum ResponseTime ResponseTimeObs.

(** The line the sampler prints for attempt [i] of [repetitions], given
    the reply. *)
Definition attempt_line (url : string) (repetitions i : nat) (r : reply) : string :=
  match r with
  | Response elapsed status_code =>
      "[" ++ string_of_N (N.of_nat (i + 1)) ++ "/" ++
      string_of_N (N.of_nat repetitions) ++ "] " ++ url ++
      " -> " ++ format_3f elapsed ++ "s (status " ++
      string_of_Z status_code ++ ")"
  | Failure e => "Error con " ++ url ++ ": " ++ exn_msg e
  end.

(** The lines of the attempts of a range, the first of them being the
    request issued after [n] earlier ones. *)
Fixpoint attempt_lines (service : nat -> string -> reply) (url : string)
    (repetitions : nat) (range : list nat) (n : nat) : list string :=
  match range with
  | [] => []
  | i :: rest =>
      attempt_line url repetitions i (service n url)
      :: attempt_lines service url repetitions rest (S n)
  end.

(** The records of a list of URLs sampled one after the other, three
    requests each, the first request being issued after [n] earlier ones:
    a URL has a record when one of its attempts succeeds. *)
Fixpoint expected_records (service : nat -> string -> reply) (urls : list string)
    (n : nat) : list (string * Q) :=
  match urls with
  | [] => []
  | u :: rest =>
      match average (successes (attempt_replies service u n default_repetitions)) with
      | Some t => (u, t) :: expected_records service rest (n + default_repetitions)
      | None => expected_records service rest (n + default_repetitions)
      end
  end.

(** The lines of the attempts on a list of URLs sampled one after the
    other, three attempts each. *)
Fixpoint all_attempt_lines (service : nat -> string -> reply) (urls : list string)
    (n : nat) : list string :=
  match urls with
  | [] => []
  | u :: rest =>
      (attempt_lines service u default_repetitions (seq 0 default_repetitions) n
       ++ all_attempt_lines service rest (n + default_repetitions))%list
  end.

(** The lines of the summary. *)
Definition summary_line (r : string * Q) : string :=
  fst r ++ " -> " ++ format_3f (snd r) ++ "s promedio".

(** The heading the script prints before the summary. *)
Definition summary_heading : string :=
  String LF "======== Resumen =======" ++ String LF "".

(** A service that answers every request but the first, which fails with
    an exception of the given class. *)
Definition first_fails (c : exn_class) (n : nat) (url : string) : reply :=
  if Nat.eqb n 0 then Failure (Exception c "boom")
  else Response (1 # 4) 200.

End SamplerObs.

Module ReportStatsObs.
Import Report.

(** Row [a] is at least as slow as row [b]. *)
Definition slower (a b : clean_row) : Prop :=
  (row_average_time b <= row_average_time a)%Q.

End ReportStatsObs.

(* ===================================================================== *)
(** * Facts about the string built-ins *)
(* ===================================================================== *)

Module PyStrFacts.
Import PyStr.

Lemma prefix_refl_app (a b : string) : String.prefix a (a ++ b) = true.
Proof.
  induction a as [|c a IH]; simpl.
  - now destruct b.
  - destruct (ascii_dec c c); [exact IH | congruence].
Qed.

Lemma prefix_head_ne (c d : ascii) (old s : string) :
  c <> d -> String.prefix (String c old) (String d s) = false.
Proof. intros Hne. simpl. destruct (ascii_dec c d); [contradiction | reflexivity]. Qed.

Lemma free_of_cons (c d : ascii) (s : string) :
  free_of c (String d s) = negb (Ascii.eqb c d) && free_of c s.
Proof. reflexivity. Qed.

Lemma free_of_app (c : ascii) (a b : string) :
  free_of c (a ++ b) = free_of c a && free_of c b.
Proof.
  induction a as [|d a IH]; [reflexivity |].
  change (String d a ++ b) with (String d (a ++ b)).
  rewrite !free_of_cons, IH. now rewrite andb_assoc.
Qed.

Lemma free_of_head (c d : ascii) (s : string) :
  free_of c (String d s) = true -> c <> d /\ free_of c s = true.
Proof.
  rewrite free_of_cons. intros H. apply andb_prop in H as [H1 H2].
  split; [| exact H2]. intros ->. now rewrite Ascii.eqb_refl in H1.
Qed.

(** A substring test fails on a text free of the pattern's first character. *)
Lemma str_in_free (c : ascii) (old s : string) :
  free_of c s = true -> str_in (String c old) s = false.
Proof.
  induction s as [|d s IH]; intros Hf; [reflexivity |].
  apply free_of_head in Hf as [Hne Hf].
  cbn [str_in]. rewrite (prefix_head_ne c d old s Hne). now apply IH.
Qed.

(** Skipping the rest of a match. *)
Lemma replace_from_skip (old new a b : string) :
  replace_from old new (a ++ b) (String.length a) = replace_from old new b 0.
Proof. induction a as [|c a IH]; simpl; [now destruct b | exact IH]. Qed.

Lemma split_from_skip (sep a b : string) :
  split_from sep (a ++ b) (String.length a) = split_from sep b 0.
Proof. induction a as [|c a IH]; simpl; [now destruct b | exact IH]. Qed.

(** A text free of the first character of the pattern is copied. *)
Lemma replace_from_free (c : ascii) (old new s : string) :
  free_of c s = true -> replace_from (String c old) new s 0 = s.
Proof.
  induction s as [|d s IH]; intros Hf; [reflexivity |].
  apply free_of_head in Hf as [Hne Hf].
  cbn [replace_from]. rewrite (prefix_head_ne c d old s Hne).
  now rewrite IH.
Qed.

(** The scan copies a stretch free of the pattern's first character and
    goes on behind it. *)
Lemma replace_from_app_free (c : ascii) (old new a b : string) :
  free_of c a = true ->
  replace_from (String c old) new (a ++ b) 0
  = a ++ replace_from (String c old) new b 0.
Proof.
  induction a as [|d a IH]; intros Hf; [reflexivity |].
  apply free_of_head in Hf as [Hne Hf].
  change (String d a ++ b) with (String d (a ++ b)).
  cbn [replace_from]. rewrite (prefix_head_ne c d old _ Hne).
  now rewrite IH.
Qed.

(** A match at the head of the text is replaced. *)
Lemma replace_from_match (c : ascii) (old new b : string) :
  replace_from (String c old) new (String c old ++ b) 0
  = new ++ replace_from (String c old) new b 0.
Proof.
  change (String c old ++ b) with (String c (old ++ b)).
  cbn [replace_from].
  change (String c (old ++ b)) with (String c old ++ b).
  rewrite prefix_refl_app.
  replace (String.length (String c old) - 1) with (String.length old)
    by (cbn [String.length]; lia).
  now rewrite replace_from_skip.
Qed.

Lemma split_from_free (c : ascii) (sep s : string) :
  free_of c s = true -> split_from (String c sep) s 0 = [s].
Proof.
  induction s as [|d s IH]; intros Hf; [reflexivity |].
  apply free_of_head in Hf as [Hne Hf].
  cbn [split_from]. rewrite (prefix_head_ne c d sep s Hne).
  now rewrite IH.
Qed.

(** The first piece of a split ends at the first separator, when what
    precedes it is free of the separator's first character. *)
Lemma split_from_app_free (c : ascii) (sep a b : string) :
  free_of c a = true ->
  split_from (String c sep) (a ++ String c sep ++ b) 0
  = a :: split_from (String c sep) b 0.
Proof.
  induction a as [|d a IH]; intros Hf.
  - change ("" ++ String c sep ++ b) with (String c (sep ++ b)).
    cbn [split_from].
    change (String c (sep ++ b)) with (String c sep ++ b).
    rewrite prefix_refl_app.
    replace (String.length (String c sep) - 1) with (String.length sep)
      by (cbn [String.length]; lia).
    now rewrite split_from_skip.
  - apply free_of_head in Hf as [Hne Hf].
    change (String d a ++ String c sep ++ b)
      with (String d (a ++ String c sep ++ b)).
    cbn [split_from]. rewrite (prefix_head_ne c d sep _ Hne).
    now rewrite IH.
Qed.

Lemma split_from_nonempty (sep s : string) (skip : nat) :
  split_from sep s skip <> [].
Proof.
  revert skip. induction s as [|d s IH]; intros skip; [discriminate |].
  cbn [split_from]. destruct skip; [| apply IH].
  destruct (String.prefix sep (String d s)); [discriminate |].
  destruct (split_from sep s 0); discriminate.
Qed.

Lemma append_assoc (a b c : string) : (a ++ b) ++ c = a ++ b ++ c.
Proof. induction a as [|d a IH]; simpl; [reflexivity | now rewrite IH]. Qed.

Lemma append_nil_r (a : string) : a ++ "" = a.
Proof. induction a as [|d a IH]; simpl; [reflexivity | now rewrite IH]. Qed.

Lemma length_append (a b : string) :
  String.length (a ++ b) = String.length a + String.length b.
Proof. induction a as [|d a IH]; simpl; [reflexivity | now rewrite IH]. Qed.

End PyStrFacts.

(* ===================================================================== *)
(** * Facts about number formatting and parsing *)
(* ===================================================================== *)

Module PyNumFacts.
Import PyStr PyNum PyStrFacts.

Lemma small_cases (d : N) :
  (d < 10)%N ->
  d = 0%N \/ d = 1%N \/ d = 2%N \/ d = 3%N \/ d = 4%N \/
  d = 5%N \/ d = 6%N \/ d = 7%N \/ d = 8%N \/ d = 9%N.
Proof. lia. Qed.

Ltac digit_cases d H :=
  destruct (small_cases d H) as [-> | [-> | [-> | [-> | [-> | [-> | [-> | [-> | [-> | ->]]]]]]]]].

Lemma digit_of_digit_char (d : N) :
  (d < 10)%N -> digit_of_char (digit_char d) = Some d.
Proof. intros H. digit_cases d H; reflexivity. Qed.

Lemma is_digit_digit_char (d : N) : (d < 10)%N -> is_digit (digit_char d) = true.
Proof. intros H. unfold is_digit. now rewrite digit_of_digit_char. Qed.

Lemma mod10_lt (n : N) : (n mod 10 < 10)%N.
Proof. apply N.mod_lt. discriminate. Qed.

Lemma all_digits_cons (c : ascii) (s : string) :
  all_digits (String c s) = is_digit c && all_digits s.
Proof. reflexivity. Qed.

Lemma digits_of_app (fuel : nat) (n : N) (acc : string) :
  digits_of fuel n acc = digits_of fuel n "" ++ acc.
Proof.
  revert n acc. induction fuel as [|fuel IH]; intros n acc; [reflexivity |].
  cbn [digits_of]. destruct (n <? 10)%N; [reflexivity |].
  rewrite IH. rewrite (IH _ (String _ "")). now rewrite append_assoc.
Qed.

Lemma all_digits_digits_of (fuel : nat) (n : N) (acc : string) :
  all_digits acc = true -> all_digits (digits_of fuel n acc) = true.
Proof.
  revert n acc. induction fuel as [|fuel IH]; intros n acc Hacc; [exact Hacc |].
  cbn [digits_of].
  assert (Hc : all_digits (String (digit_char (n mod 10)) acc) = true)
    by (rewrite all_digits_cons, is_digit_digit_char, Hacc; [reflexivity | apply mod10_lt]).
  destruct (n <? 10)%N; [exact Hc | now apply IH].
Qed.

Lemma digits_value_digits_of (fuel : nat) :
  forall (n : N) (acc : string),
    (n < 2 ^ N.of_nat fuel)%N ->
    digits_value (digits_of fuel n acc) 0%N = digits_value acc n.
Proof.
  induction fuel as [|fuel IH]; intros n acc Hn.
  - cbn in Hn. assert (n = 0%N) by lia. now subst.
  - cbn [digits_of]. destruct (N.ltb_spec n 10%N) as [Hlt | Hge].
    + cbn [digits_value]. rewrite digit_of_digit_char by apply mod10_lt.
      f_equal. rewrite N.mod_small by exact Hlt. lia.
    + rewrite IH.
      * cbn [digits_value]. rewrite digit_of_digit_char by apply mod10_lt.
        f_equal. pose proof (N.div_mod n 10%N ltac:(discriminate)). lia.
      * rewrite Nat2N.inj_succ, N.pow_succ_r' in Hn.
        apply N.Div0.div_lt_upper_bound. lia.
Qed.

Lemma string_of_N_fuel (n : N) :
  (n < 2 ^ N.of_nat (S (N.to_nat (N.log2 n))))%N.
Proof.
  rewrite Nat2N.inj_succ, N2Nat.id.
  destruct (N.eq_dec n 0%N) as [-> | Hn]; [reflexivity |].
  apply N.log2_spec. lia.
Qed.


Lemma digits_value_frac3 (a v : N) :
  digits_value (frac3 a) v = Some (1000 * v + a mod 1000)%N.
Proof.
  unfold frac3. cbn [digits_value].
  rewrite !digit_of_digit_char by apply mod10_lt.
  f_equal. zify. Z.to_euclidean_division_equations. lia.
Qed.

Lemma digits_value_format (a : N) :
  digits_value (string_of_N (a / 1000) ++ frac3 a) 0%N = Some a.
Proof.
  unfold string_of_N. rewrite <- digits_of_app.
  rewrite digits_value_digits_of by apply string_of_N_fuel.
  rewrite digits_value_frac3. f_equal.
  zify. Z.to_euclidean_division_equations. lia.
Qed.

Lemma all_digits_string_of_N (n : N) : all_digits (string_of_N n) = true.
Proof. unfold string_of_N. now apply all_digits_digits_of. Qed.

Lemma all_digits_frac3 (a : N) : all_digits (frac3 a) = true.
Proof.
  unfold frac3. rewrite !all_digits_cons.
  now rewrite !is_digit_digit_char by apply mod10_lt.
Qed.

Lemma string_of_N_head (n : N) :
  exists c s, string_of_N n = String c s /\ is_digit c = true.
Proof.
  pose proof (all_digits_string_of_N n) as Hd.
  assert (Hne : string_of_N n <> "").
  { unfold string_of_N. cbn [digits_of].
    destruct (n <? 10)%N; [discriminate |].
    rewrite digits_of_app. now destruct (digits_of _ _ ""). }
  destruct (string_of_N n) as [|c s]; [congruence |].
  exists c, s. split; [reflexivity |].
  rewrite all_digits_cons in Hd. now apply andb_prop in Hd.
Qed.

(** The numeral of a positive number starts with a digit other than 0. *)
Lemma digits_of_head (fuel : nat) :
  forall (n : N) (acc : string),
    (0 < n)%N -> (n < 2 ^ N.of_nat fuel)%N ->
    exists c s, digits_of fuel n acc = String c s /\ c <> "0"%char.
Proof.
  induction fuel as [|fuel IH]; intros n acc Hpos Hn.
  - cbn in Hn. lia.
  - cbn [digits_of]. destruct (N.ltb_spec n 10%N) as [Hlt | Hge].
    + exists (digit_char (n mod 10)), acc. split; [reflexivity |].
      rewrite N.mod_small by exact Hlt.
      digit_cases n Hlt; solve [lia | discriminate].
    + apply IH.
      * apply N.div_str_pos. lia.
      * rewrite Nat2N.inj_succ, N.pow_succ_r' in Hn.
        apply N.Div0.div_lt_upper_bound. lia.
Qed.

Lemma string_of_N_canonical (n : N) :
  string_of_N n = "0" \/ exists c s, string_of_N n = String c s /\ c <> "0"%char.
Proof.
  destruct (N.eq_dec n 0%N) as [-> | Hn]; [now left | right].
  apply digits_of_head; [lia | apply string_of_N_fuel].
Qed.

(** A run of digits holds no other character. *)
Lemma all_digits_free (c : ascii) (s : string) :
  is_digit c = false -> all_digits s = true -> free_of c s = true.
Proof.
  intros Hc. induction s as [|d s IH]; intros Hs; [reflexivity |].
  rewrite all_digits_cons in Hs. apply andb_prop in Hs as [Hd Hs].
  rewrite free_of_cons, IH by exact Hs.
  destruct (Ascii.eqb_spec c d) as [-> | _]; [congruence | reflexivity].
Qed.

Lemma parse_unsigned_format (a : N) :
  parse_unsigned (string_of_N (a / 1000) ++ "." ++ frac3 a)
  = Some (Z.of_N a # 1000)%Q.
Proof.
  unfold parse_unsigned, split.
  rewrite split_from_app_free
    by (apply all_digits_free; [reflexivity | apply all_digits_string_of_N]).
  rewrite split_from_free
    by (apply all_digits_free; [reflexivity | apply all_digits_frac3]).
  pose proof (digits_value_format a) as Hv.
  destruct (string_of_N_head (a / 1000)) as (c & s & Hs & _).
  rewrite Hs in *. now rewrite Hv.
Qed.

Lemma parse_decimal_not_minus (c : ascii) (s : string) :
  c <> "-"%char -> parse_decimal (String c s) = parse_unsigned (String c s).
Proof.
  intros Hc.
  destruct c as [[] [] [] [] [] [] [] []]; try reflexivity; congruence.
Qed.

(** The rounded count of thousandths has the sign of the number. *)
Lemma round_half_even_sign (q : Q) :
  ((Qnum q < 0 -> round_half_even (q * 1000) <= 0) /\
   (0 <= Qnum q -> 0 <= round_half_even (q * 1000)))%Z.
Proof.
  unfold round_half_even. cbn [Qmult Qnum Qden].
  rewrite Pos.mul_1_r.
  set (n := (Qnum q * 1000)%Z). set (d := Zpos (Qden q)).
  assert (Hd : (0 < d)%Z) by apply Pos2Z.is_pos.
  pose proof (Z.div_mod n d ltac:(lia)) as Hdm.
  pose proof (Z.mod_pos_bound n d Hd) as Hb.
  assert (Hn : (Qnum q < 0 -> n < 0)%Z /\ (0 <= Qnum q -> 0 <= n)%Z) by (unfold n; lia).
  destruct Hn as [Hn1 Hn2].
  split; intros Hq;
    destruct (2 * (n mod d) <? d)%Z, (d <? 2 * (n mod d))%Z, (Z.even (n / d)); nia.
Qed.

Lemma parse_decimal_format_3f (q : Q) :
  parse_decimal (format_3f q) = Some (stored_time q).
Proof.
  unfold format_3f, stored_time.
  destruct (round_half_even_sign q) as [Hneg Hpos].
  set (m := round_half_even (q * 1000)) in *.
  pose proof (N2Z.inj_abs_N m) as Habs.
  destruct (Z.ltb_spec (Qnum q) 0) as [Hq | Hq].
  - change ("-" ++ string_of_N (Z.abs_N m / 1000) ++ "." ++ frac3 (Z.abs_N m))
      with (String "-" (string_of_N (Z.abs_N m / 1000) ++ "." ++ frac3 (Z.abs_N m))).
    cbn [parse_decimal]. rewrite parse_unsigned_format.
    unfold Qopp. cbn [Qnum Qden]. do 2 f_equal. specialize (Hneg Hq). lia.
  - change ("" ++ string_of_N (Z.abs_N m / 1000) ++ "." ++ frac3 (Z.abs_N m))
      with (string_of_N (Z.abs_N m / 1000) ++ "." ++ frac3 (Z.abs_N m)).
    destruct (string_of_N_head (Z.abs_N m / 1000)) as (c & s & Hs & Hc).
    pose proof (parse_unsigned_format (Z.abs_N m)) as Hp.
    rewrite Hs in *.
    change (String c s ++ "." ++ frac3 (Z.abs_N m))
      with (String c (s ++ "." ++ frac3 (Z.abs_N m))) in *.
    rewrite parse_decimal_not_minus by (intros ->; discriminate).
    rewrite Hp. do 2 f_equal. specialize (Hpos Hq). lia.
Qed.

End PyNumFacts.

(* ===================================================================== *)
(** * Properties of the reporter's classification *)
(* ===================================================================== *)

Module ReportProps.
Import PyStr Report.

Example categorize_search : categorize_endpoint "search/person?keywords=jaime" = "search".
Proof. reflexivity. Qed.

Example categorize_research : categorize_endpoint "person/A5105622035/research/news" = "search".
Proof. reflexivity. Qed.

Example categorize_plain_person : categorize_endpoint "person/A5105622035" = "person".
Proof. reflexivity. Qed.

Example categorize_affiliation : categorize_endpoint "affiliation/institution/01p9nak43" = "affiliation".
Proof. reflexivity. Qed.

Example categorize_apc_affiliation : categorize_endpoint "apc/affiliation/01p9nak43" = "apc".
Proof. reflexivity. Qed.

Example categorize_other : categorize_endpoint "status" = "other".
Proof. reflexivity. Qed.

(** C1, as stated, fails: the clean endpoint of a generated URL contains
    "person" and not "search", and it is classified as apc, not as person,
    because each of the person and affiliation tests also asks that "apc"
    be absent. *)
Lemma categorize_endpoint_apc_person :
  str_in "person" "apc/person/A5105622035" = true /\
  str_in "search" "apc/person/A5105622035" = false /\
  categorize_endpoint "apc/person/A5105622035" = "apc" /\
  categorize_endpoint "apc/person/A5105622035" <> "person".
Proof. repeat split; try reflexivity. discriminate. Qed.

(** C1, amended: the classification is decided by substring tests in the
    order search, apc, person, affiliation, other.  A string containing
    "search" is search; one containing "person" but neither "search" nor
    "apc" is person; one containing "affiliation" but none of "search",
    "person" and "apc" is affiliation; one containing "apc" but not "search"
    is apc, whatever else it contains; every other string is other. *)
Theorem categorize_endpoint_priority (s : string) :
  (str_in "search" s = true -> categorize_endpoint s = "search") /\
  (str_in "search" s = false -> str_in "apc" s = false ->
   str_in "person" s = true -> categorize_endpoint s = "person") /\
  (str_in "search" s = false -> str_in "apc" s = false ->
   str_in "person" s = false -> str_in "affiliation" s = true ->
   categorize_endpoint s = "affiliation") /\
  (str_in "search" s = false -> str_in "apc" s = true ->
   categorize_endpoint s = "apc") /\
  (str_in "search" s = false -> str_in "apc" s = false ->
   str_in "person" s = false -> str_in "affiliation" s = false ->
   categorize_endpoint s = "other").
Proof.
  unfold categorize_endpoint.
  destruct (str_in "search" s), (str_in "apc" s),
    (str_in "person" s), (str_in "affiliation" s); cbn;
    repeat split; intros; congruence.
Qed.

End ReportProps.

(* ===================================================================== *)
(** * Properties of the URL generator *)
(* ===================================================================== *)

Module BuildUrlProps.
Import PyStr Py BuildUrl BuildUrlObs PyStrFacts.

(** The element at a position of a product is the pair of the elements at
    the quotient and the remainder: [itertools.product] runs through the
    second list for each element of the first. *)
Lemma nth_list_prod {A B} (l1 : list A) (l2 : list B) (a b : nat) (da : A) (db : B) :
  a < List.length l1 -> b < List.length l2 ->
  nth (a * List.length l2 + b) (list_prod l1 l2) (da, db) = (nth a l1 da, nth b l2 db).
Proof.
  revert a. induction l1 as [|x l1 IH]; intros a Ha Hb; [simpl in Ha; lia |].
  cbn [list_prod]. destruct a as [|a].
  - rewrite app_nth1 by (rewrite length_map; simpl; lia).
    simpl. rewrite (nth_indep _ (da, db) (x, db)) by (rewrite length_map; exact Hb).
    exact (map_nth (fun y => (x, y)) l2 db b).
  - rewrite app_nth2 by (rewrite length_map; simpl; lia).
    rewrite length_map.
    replace (S a * List.length l2 + b - List.length l2)
      with (a * List.length l2 + b) by (simpl; lia).
    apply IH; [simpl in Ha; lia | exact Hb].
Qed.

Section Tables.

Variable base : string.
Variable types ids persons : list string.
Variable keywords : gmap string (list string).
Variable rnd : nat -> nat.

(** C3.  A template with both the affiliation-type and the affiliation-id
    placeholder, with at least three affiliation-id samples: the generator
    makes no random draw and emits one URL per pair of an affiliation type
    and one of the first three affiliation ids, that is
    |affiliation_types| * 3 URLs; each is the base URL followed by the
    template with both placeholders replaced by the pair's values; and the
    URL at position [a * 3 + b] is the one of the [a]-th type and the
    [b]-th id (product order). *)
Theorem expand_dual_placeholder (endpoint : string) (draws : nat) :
  str_in "<affiliation_type>" endpoint = true ->
  str_in "<affiliation_id>" endpoint = true ->
  3 <= List.length ids ->
  exists urls,
    expand_endpoint base types ids persons keywords rnd endpoint draws
    = Returns (urls, draws) /\
    List.length urls = List.length types * 3 /\
    urls = List.map (fun p => dual_url base endpoint (fst p) (snd p))
                    (list_prod types (firstn 3 ids)) /\
    (forall u, In u urls -> String.prefix base u = true) /\
    (forall a b, a < List.length types -> b < 3 ->
       nth (a * 3 + b) urls EmptyString
       = dual_url base endpoint (nth a types EmptyString) (nth b ids EmptyString)).
Proof.
  intros Ht Hi Hlen.
  assert (Hfirst : List.length (firstn 3 ids) = 3)
    by (apply firstn_length_le; exact Hlen).
  eexists. split; [| split; [| split; [reflexivity | split]]].
  - unfold expand_endpoint. rewrite Ht, Hi. cbn [andb]. unfold ret.
    do 2 f_equal. apply map_ext. now intros [t i].
  - now rewrite length_map, length_prod, Hfirst.
  - intros u Hu. apply in_map_iff in Hu as [[t i] [<- _]].
    apply prefix_refl_app.
  - intros a b Ha Hb.
    set (f := fun p : string * string => dual_url base endpoint (fst p) (snd p)).
    assert (Hin : a * 3 + b < List.length (list_prod types (firstn 3 ids)))
      by (rewrite length_prod, Hfirst; nia).
    rewrite (nth_indep _ EmptyString (f (EmptyString, EmptyString)))
      by (rewrite length_map; exact Hin).
    rewrite map_nth.
    replace (a * 3 + b) with (a * List.length (firstn 3 ids) + b)
      by (now rewrite Hfirst).
    rewrite nth_list_prod by (rewrite ?Hfirst; assumption).
    unfold f. cbn [fst snd]. f_equal.
    destruct ids as [|i0 [|i1 [|i2 rest]]]; simpl in Hlen; try lia.
    destruct b as [|[|[|b]]]; [reflexivity.. | lia].
Qed.

(** A draw from a non-empty sequence is one of its elements. *)
Lemma pick_In (k : nat) (seq : list string) :
  seq <> [] -> In (pick rnd k seq) seq.
Proof.
  intros Hne. unfold pick. apply nth_In.
  apply Nat.mod_upper_bound. destruct seq; [congruence | discriminate].
Qed.

(** The keyword branch, over arbitrary tables: one draw, one URL. *)
Lemma expand_keyword_branch (endpoint : string) (kws : list string) (draws : nat) :
  str_in "<affiliation_type>" endpoint = false ->
  str_in "<affiliation_id>" endpoint = false ->
  str_in "<person_id>" endpoint = false ->
  keywords !! endpoint = Some kws ->
  kws <> [] ->
  expand_endpoint base types ids persons keywords rnd endpoint draws
  = Returns ([base ++ endpoint ++ "?keywords=" ++ pick rnd draws kws], S draws).
Proof.
  intros Ht Hi Hp Hk Hne. unfold expand_endpoint.
  rewrite Ht, Hi, Hp, Hk. cbn [andb].
  destruct kws; [congruence | reflexivity].
Qed.

(** The affiliation-type branch never looks at the keyword map and makes no
    draw. *)
Lemma expand_type_branch (endpoint : string) (draws : nat) :
  str_in "<affiliation_type>" endpoint = true ->
  str_in "<affiliation_id>" endpoint = false ->
  str_in "<person_id>" endpoint = false ->
  expand_endpoint base types ids persons keywords rnd endpoint draws
  = Returns (List.map (fun t => base ++ replace endpoint "<affiliation_type>" t) types,
             draws).
Proof.
  intros Ht Hi Hp. unfold expand_endpoint. rewrite Ht, Hi, Hp. reflexivity.
Qed.

End Tables.

(** The keyword lists of the script are not empty. *)
Lemma KEYWORDS_lookup (endpoint : string) (kws : list string) :
  KEYWORDS !! endpoint = Some kws ->
  kws <> [] /\
  (endpoint = "/api/search/affiliations" \/ endpoint = "/api/search/person" \/
   endpoint = "/api/search/works" \/ endpoint = "/api/apc/search").
Proof.
  unfold KEYWORDS. intros H.
  repeat (rewrite lookup_insert in H; case_decide;
          [inversion H; subst; split; [discriminate | tauto] |]).
  now rewrite lookup_empty in H.
Qed.

(** C7.  A template with none of the three placeholders that is a key of
    the keyword map: the generator makes one draw and emits exactly one URL,
    the base URL, the template as it stands, and the query string
    [?keywords=] with a keyword of that key's list. *)
Theorem expand_keyword_template (rnd : nat -> nat) (endpoint : string)
    (kws : list string) (draws : nat) :
  str_in "<affiliation_type>" endpoint = false ->
  str_in "<affiliation_id>" endpoint = false ->
  str_in "<person_id>" endpoint = false ->
  KEYWORDS !! endpoint = Some kws ->
  exists keyword,
    In keyword kws /\
    expand_endpoint BASE_URL AFFILIATION_TYPES AFFILIATION_IDS PERSON_IDS
                    KEYWORDS rnd endpoint draws
    = Returns ([BASE_URL ++ endpoint ++ "?keywords=" ++ keyword], S draws).
Proof.
  intros Ht Hi Hp Hk.
  destruct (KEYWORDS_lookup endpoint kws Hk) as [Hne _].
  exists (pick rnd draws kws). split.
  - now apply pick_In.
  - now apply expand_keyword_branch.
Qed.

(** The first template of the script, with the script's tables. *)
Lemma expand_dual_placeholder_witness :
  str_in "<affiliation_type>" (nth 0 RAW_ENDPOINTS "") = true /\
  str_in "<affiliation_id>" (nth 0 RAW_ENDPOINTS "") = true /\
  3 <= List.length AFFILIATION_IDS /\
  exists urls,
    expand_endpoint BASE_URL AFFILIATION_TYPES AFFILIATION_IDS PERSON_IDS KEYWORDS
                    (fun k => k) (nth 0 RAW_ENDPOINTS "") 0
    = Returns (urls, 0) /\
    urls = [ "http://localhost:8010/api/affiliation/institution/01p9nak43/research/products";
             "http://localhost:8010/api/affiliation/institution/04j43p132/research/products";
             "http://localhost:8010/api/affiliation/institution/027nnzv91/research/products" ].
Proof.
  split; [reflexivity |]. split; [reflexivity |]. split; [simpl; lia |].
  destruct (expand_dual_placeholder BASE_URL AFFILIATION_TYPES AFFILIATION_IDS
              PERSON_IDS KEYWORDS (fun k => k) (nth 0 RAW_ENDPOINTS "") 0)
    as (urls & Hrun & _ & Hurls & _); [reflexivity | reflexivity | simpl; lia |].
  exists urls. split; [exact Hrun | rewrite Hurls; reflexivity].
Defined.

(** The template /api/search/works, with a random source that always
    returns 2. *)
Lemma expand_keyword_template_witness :
  str_in "<affiliation_type>" "/api/search/works" = false /\
  str_in "<affiliation_id>" "/api/search/works" = false /\
  str_in "<person_id>" "/api/search/works" = false /\
  KEYWORDS !! "/api/search/works" = Some ["ciencia"; "data"; "ai"; "salud"] /\
  exists keyword,
    In keyword ["ciencia"; "data"; "ai"; "salud"] /\
    expand_endpoint BASE_URL AFFILIATION_TYPES AFFILIATION_IDS PERSON_IDS
                    KEYWORDS (fun _ => 2) "/api/search/works" 0
    = Returns ([BASE_URL ++ "/api/search/works" ++ "?keywords=" ++ keyword], 1).
Proof.
  repeat (split; [reflexivity |]).
  apply (expand_keyword_template (fun _ => 2) "/api/search/works"
           ["ciencia"; "data"; "ai"; "salud"] 0); reflexivity.
Defined.

(** ** The run of the generator over the script's tables *)

(** The generator never raises on the script's tables: it makes three
    draws, in template order, and returns [generated] of the keywords
    drawn.  The keyword map may be any map that agrees with [KEYWORDS]
    outside the key "/api/search/affiliations". *)
Lemma expand_loop_generated (rnd : nat -> nat) (kwmap : gmap string (list string)) :
  (forall key, key <> "/api/search/affiliations" -> kwmap !! key = KEYWORDS !! key) ->
  expand_loop BASE_URL AFFILIATION_TYPES AFFILIATION_IDS PERSON_IDS kwmap rnd
              RAW_ENDPOINTS [] 0
  = Returns (generated (pick rnd 0 APC_KEYWORDS) (pick rnd 1 PERSON_KEYWORDS)
                       (pick rnd 2 WORKS_KEYWORDS), 3).
Proof.
  intros Hagree.
  assert (H1 : kwmap !! "/api/apc/search" = Some APC_KEYWORDS)
    by (rewrite Hagree; [reflexivity | discriminate]).
  assert (H2 : kwmap !! "/api/search/person" = Some PERSON_KEYWORDS)
    by (rewrite Hagree; [reflexivity | discriminate]).
  assert (H3 : kwmap !! "/api/search/works" = Some WORKS_KEYWORDS)
    by (rewrite Hagree; [reflexivity | discriminate]).
  unfold RAW_ENDPOINTS. cbn [expand_loop]. unfold gbind.
  repeat
    match goal with
    | |- context [expand_endpoint ?b ?t ?i ?p kwmap rnd ?e ?k] =>
        first
          [ rewrite (expand_keyword_branch b t i p kwmap rnd e _ k
                       eq_refl eq_refl eq_refl ltac:(eassumption) ltac:(discriminate))
          | let r := eval vm_compute in
                       (expand_endpoint b t i p (∅ : gmap string (list string))
                                        (fun _ => 0) e 0) in
            match r with
            | Returns (?urls, _) =>
                replace (expand_endpoint b t i p kwmap rnd e k)
                  with (@Returns (list string * nat) (urls, k))
                  by (unfold expand_endpoint; reflexivity)
            end ];
        cbn [bind]
    end.
  reflexivity.
Qed.

Lemma expand_endpoints_generated (rnd : nat -> nat) :
  expand_endpoints rnd
  = Returns (generated (pick rnd 0 APC_KEYWORDS) (pick rnd 1 PERSON_KEYWORDS)
                       (pick rnd 2 WORKS_KEYWORDS)).
Proof.
  unfold expand_endpoints, expand_endpoints_from.
  now rewrite expand_loop_generated.
Qed.

Lemma KEYWORDS_entries :
  KEYWORDS !! "/api/search/affiliations" = Some AFFILIATIONS_KEYWORDS /\
  KEYWORDS !! "/api/search/person" = Some PERSON_KEYWORDS /\
  KEYWORDS !! "/api/search/works" = Some WORKS_KEYWORDS /\
  KEYWORDS !! "/api/apc/search" = Some APC_KEYWORDS.
Proof. repeat split; reflexivity. Qed.

(** Case analysis on the three keywords a run draws. *)
Ltac name_draws rnd apc person works Ha Hp Hw :=
  pose proof (pick_In rnd 0 APC_KEYWORDS ltac:(discriminate)) as Ha;
  pose proof (pick_In rnd 1 PERSON_KEYWORDS ltac:(discriminate)) as Hp;
  pose proof (pick_In rnd 2 WORKS_KEYWORDS ltac:(discriminate)) as Hw;
  set (apc := pick rnd 0 APC_KEYWORDS) in *;
  set (person := pick rnd 1 PERSON_KEYWORDS) in *;
  set (works := pick rnd 2 WORKS_KEYWORDS) in *;
  clearbody apc person works.

Ltac one_of_four H := destruct H as [<- | [<- | [<- | [<- | []]]]].

(** C9.  Whatever the random source, the generator returns 22 URLs, each
    starting with the base URL and none with a '<' or a '>' left in it. *)
Theorem expand_endpoints_invariant (rnd : nat -> nat) :
  exists urls,
    expand_endpoints rnd = Returns urls /\
    List.length urls = 22 /\
    Forall (fun u => String.prefix BASE_URL u = true /\
                     free_of "<" u = true /\ free_of ">" u = true) urls.
Proof.
  rewrite expand_endpoints_generated.
  name_draws rnd apc person works Ha Hp Hw.
  eexists. split; [reflexivity |]. split; [reflexivity |].
  apply List.Forall_forall. intros u Hu. unfold generated in Hu. cbn [In] in Hu.
  repeat (destruct Hu as [<- | Hu];
          [ first [ now vm_compute
                  | one_of_four Ha; now vm_compute
                  | one_of_four Hp; now vm_compute
                  | one_of_four Hw; now vm_compute ] |]).
  contradiction.
Qed.

(** C10.  Whatever the random source, exactly three of the URLs returned
    hold [keywords=]: those of the templates /api/apc/search,
    /api/search/person and /api/search/works, in that order, each with a
    keyword of its own list.  The template
    /api/search/affiliations/<affiliation_type> is expanded by the
    affiliation-type branch, whatever the keyword map holds, into one URL
    with no query string.  And the list keyed by /api/search/affiliations
    is never used: the run is the same for every keyword map that differs
    from [KEYWORDS] at that key only. *)
Theorem keywords_query_urls (rnd : nat -> nat) :
  exists urls apc person works,
    expand_endpoints rnd = Returns urls /\
    In apc APC_KEYWORDS /\ In person PERSON_KEYWORDS /\ In works WORKS_KEYWORDS /\
    List.filter (str_in "keywords=") urls
    = [ "http://localhost:8010/api/apc/search?keywords=" ++ apc;
        "http://localhost:8010/api/search/person?keywords=" ++ person;
        "http://localhost:8010/api/search/works?keywords=" ++ works ] /\
    (forall (kwmap : gmap string (list string)) (draws : nat),
       expand_endpoint BASE_URL AFFILIATION_TYPES AFFILIATION_IDS PERSON_IDS
                       kwmap rnd "/api/search/affiliations/<affiliation_type>" draws
       = Returns (["http://localhost:8010/api/search/affiliations/institution"],
                  draws)) /\
    In "http://localhost:8010/api/search/affiliations/institution" urls /\
    free_of "?" "http://localhost:8010/api/search/affiliations/institution" = true /\
    (forall kwmap : gmap string (list string),
       (forall key, key <> "/api/search/affiliations" ->
                    kwmap !! key = KEYWORDS !! key) ->
       expand_loop BASE_URL AFFILIATION_TYPES AFFILIATION_IDS PERSON_IDS kwmap rnd
                   RAW_ENDPOINTS [] 0
       = Returns (urls, 3)).
Proof.
  exists (generated (pick rnd 0 APC_KEYWORDS) (pick rnd 1 PERSON_KEYWORDS)
                    (pick rnd 2 WORKS_KEYWORDS)),
         (pick rnd 0 APC_KEYWORDS), (pick rnd 1 PERSON_KEYWORDS),
         (pick rnd 2 WORKS_KEYWORDS).
  split; [apply expand_endpoints_generated |].
  do 3 (split; [apply pick_In; discriminate |]).
  split.
  { name_draws rnd apc person works Ha Hp Hw.
    one_of_four Ha; one_of_four Hp; one_of_four Hw; reflexivity. }
  split.
  { intros kwmap draws.
    now rewrite expand_type_branch by reflexivity. }
  split; [unfold generated; cbn [In]; tauto |].
  split; [reflexivity |].
  intros kwmap Hagree. now apply expand_loop_generated.
Qed.

End BuildUrlProps.

(* ===================================================================== *)
(** * Properties of the latency sampler *)
(* ===================================================================== *)

Module ResponseTimeProps.
Import PyStr Py PyNum ResponseTime ResponseTimeObs.

Section Service.

Variable service : nat -> string -> reply.

Lemma length_attempt_replies (url : string) (n k : nat) :
  List.length (attempt_replies service url n k) = k.
Proof. revert n. induction k; intros n; simpl; [reflexivity | now rewrite IHk]. Qed.

Lemma successes_all_failed (url : string) (k n : nat) :
  (forall j, j < k -> request_failure (service (n + j) url) = true) ->
  successes (attempt_replies service url n k) = [].
Proof.
  revert n. induction k as [|k IH]; intros n H; [reflexivity |].
  cbn [attempt_replies]. pose proof (H 0 ltac:(lia)) as H0.
  rewrite Nat.add_0_r in H0.
  destruct (service n url); [discriminate |]. cbn [successes].
  apply IH. intros j Hj. specialize (H (S j) ltac:(lia)).
  now replace (S n + j) with (n + S j) by lia.
Qed.

(** The loop of the sampler on request-level replies: it does not raise; it
    issues one request per element of the range, prints one line for each,
    and appends to [times] the durations of the responses, in order. *)
Lemma measure_loop_request_level (url : string) (repetitions : nat) :
  forall (range : list nat) (times : list Q) (w : world),
    (forall j, j < List.length range ->
               request_level (service (requests_sent w + j) url) = true) ->
    exists w',
      measure_loop service url repetitions range times w
      = Returns ((times ++ successes
                    (attempt_replies service url (requests_sent w) (List.length range)))%list, w') /\
      requests_sent w' = requests_sent w + List.length range /\
      List.length (stdout w') = List.length (stdout w) + List.length range.
Proof.
  induction range as [|i range IH]; intros times w H.
  - exists w. cbn. rewrite app_nil_r. repeat split; lia.
  - pose proof (H 0 ltac:(simpl; lia)) as H0. rewrite Nat.add_0_r in H0.
    cbn [measure_loop List.length attempt_replies]. unfold timed_get.
    destruct (service (requests_sent w) url) as [elapsed status | e] eqn:Hr;
      cbn [request_level] in H0.
    + unfold iobind at 1. unfold print at 1. cbn [bind successes].
      match goal with
      | |- context [measure_loop _ _ _ _ _ ?w1] =>
          destruct (IH (times ++ [elapsed])%list w1) as (w' & Hw & Hs & Ho)
      end.
      { cbn [requests_sent]. intros j Hj.
        specialize (H (S j) ltac:(simpl; lia)).
        now replace (S (requests_sent w) + j) with (requests_sent w + S j) by lia. }
      exists w'. cbn [requests_sent stdout] in *.
      rewrite Hw, <- app_assoc. cbn [app].
      repeat split; [lia |]. rewrite Ho, length_app. simpl. lia.
    + rewrite H0. unfold iobind at 1. unfold print at 1. cbn [bind successes].
      match goal with
      | |- context [measure_loop _ _ _ _ _ ?w1] =>
          destruct (IH times w1) as (w' & Hw & Hs & Ho)
      end.
      { cbn [requests_sent]. intros j Hj.
        specialize (H (S j) ltac:(simpl; lia)).
        now replace (S (requests_sent w) + j) with (requests_sent w + S j) by lia. }
      exists w'. cbn [requests_sent stdout] in *.
      rewrite Hw. repeat split; [lia |]. rewrite Ho, length_app. simpl. lia.
Qed.

(** An exception outside the [RequestException] hierarchy is not caught: it
    leaves the sampler at the attempt that met it. *)
Lemma measure_loop_propagates (url : string) (repetitions i : nat)
    (range : list nat) (times : list Q) (w : world) (e : exception) :
  service (requests_sent w) url = Failure e ->
  is_RequestException (exn_cls e) = false ->
  measure_loop service url repetitions (i :: range) times w = Raises e.
Proof.
  intros Hr He. cbn [measure_loop]. unfold timed_get. now rewrite Hr, He.
Qed.

(** [sum], a left fold from 0, adds up the list. *)
Lemma fold_left_Qplus (l : list Q) (a : Q) :
  (fold_left Qplus l a == a + fold_right Qplus 0 l)%Q.
Proof.
  revert a. induction l as [|x l IH]; intros a; cbn [fold_left fold_right].
  - now rewrite Qplus_0_r.
  - rewrite IH. now rewrite Qplus_assoc.
Qed.

Lemma sum_over_len (times : list Q) :
  (sum times / len times == arithmetic_mean times)%Q.
Proof.
  unfold sum, len, arithmetic_mean.
  now rewrite fold_left_Qplus, Qplus_0_l.
Qed.

Lemma measure_response_time_request_level (url : string) (repetitions : nat) (w : world) :
  (forall j, j < repetitions ->
             request_level (service (requests_sent w + j) url) = true) ->
  exists w',
    measure_loop service url repetitions (seq 0 repetitions) [] w
    = Returns (successes (attempt_replies service url (requests_sent w) repetitions), w') /\
    measure_response_time service url repetitions w
    = Returns (average (successes (attempt_replies service url (requests_sent w) repetitions)), w') /\
    requests_sent w' = requests_sent w + repetitions /\
    List.length (stdout w') = List.length (stdout w) + repetitions.
Proof.
  intros H.
  destruct (measure_loop_request_level url repetitions (seq 0 repetitions) [] w)
    as (w' & Hw & Hs & Ho).
  { now rewrite length_seq. }
  rewrite length_seq in *. cbn [app] in Hw.
  exists w'. split; [exact Hw |]. split; [| split; assumption].
  unfold measure_response_time, iobind. rewrite Hw. cbn [bind]. unfold ret.
  now destruct (successes _).
Qed.

(** C2.  A sampling run whose failed attempts are all request-level
    failures (exceptions of the [RequestException] hierarchy: timeouts,
    connection errors, and its other, non-network members).  The sampler
    does not raise; it issues exactly one request per repetition, so no
    attempt is retried and none is left out, and prints one line per
    attempt; the times it records are the durations of the successful
    attempts, in order, and nothing else. *)
Theorem failed_attempts_are_skipped (url : string) (repetitions : nat) (w : world) :
  (forall j, j < repetitions ->
             request_level (service (requests_sent w + j) url) = true) ->
  exists w',
    measure_loop service url repetitions (seq 0 repetitions) [] w
    = Returns (successes (attempt_replies service url (requests_sent w) repetitions), w') /\
    (exists average_time,
        measure_response_time service url repetitions w = Returns (average_time, w')) /\
    requests_sent w' = requests_sent w + repetitions /\
    List.length (stdout w') = List.length (stdout w) + repetitions.
Proof.
  intros H.
  destruct (measure_response_time_request_level url repetitions w H)
    as (w' & Hl & Hm & Hs & Ho).
  exists w'. repeat split; try assumption. eexists. exact Hm.
Qed.

(** C5.  A sampling run whose failed attempts are all request-level
    failures and in which at least one attempt succeeds: the sampler
    returns the arithmetic mean of the durations of the successful attempts
    alone; with two successes [d1] and [d2], whatever the number of failed
    attempts, that is [(d1 + d2) / 2]. *)
Theorem mean_of_successful_attempts (url : string) (repetitions : nat) (w : world) :
  (forall j, j < repetitions ->
             request_level (service (requests_sent w + j) url) = true) ->
  successes (attempt_replies service url (requests_sent w) repetitions) <> [] ->
  exists m w',
    measure_response_time service url repetitions w = Returns (Some m, w') /\
    (m == arithmetic_mean
            (successes (attempt_replies service url (requests_sent w) repetitions)))%Q /\
    (forall d1 d2,
        successes (attempt_replies service url (requests_sent w) repetitions) = [d1; d2] ->
        (m == (d1 + d2) / 2)%Q).
Proof.
  intros H Hne.
  destruct (measure_response_time_request_level url repetitions w H)
    as (w' & _ & Hm & _ & _).
  destruct (successes (attempt_replies service url (requests_sent w) repetitions))
    as [|t ts] eqn:Hs; [congruence |].
  cbn [average] in Hm.
  exists (sum (t :: ts) / len (t :: ts))%Q, w'. split; [exact Hm |].
  split; [apply sum_over_len |].
  intros d1 d2 Heq. inversion Heq; subst.
  rewrite sum_over_len. unfold arithmetic_mean. cbn. field.
Qed.

(** A request failure is a request-level reply. *)
Lemma request_failure_level (r : reply) :
  request_failure r = true -> request_level r = true.
Proof. destruct r; [discriminate | exact (fun H => H)]. Qed.

(** The summary never raises. *)
Lemma print_summary_returns (results : list (string * Q)) (w : world) :
  exists w', print_summary results w = Returns (tt, w').
Proof.
  revert w. induction results as [|r results IH]; intros w.
  - now exists w.
  - cbn [print_summary]. unfold iobind, print. cbn [bind]. apply IH.
Qed.

(** The sampler on a URL whose attempts all fail. *)
Lemma measure_response_time_all_failed (url : string) (repetitions : nat) (w : world) :
  (forall j, j < repetitions ->
             request_failure (service (requests_sent w + j) url) = true) ->
  exists w',
    measure_response_time service url repetitions w = Returns (None, w') /\
    requests_sent w' = requests_sent w + repetitions.
Proof.
  intros H.
  destruct (measure_response_time_request_level url repetitions w)
    as (w' & _ & Hm & Hs & _).
  { intros j Hj. apply request_failure_level. now apply H. }
  rewrite (successes_all_failed url repetitions (requests_sent w) H) in Hm.
  exists w'. now split.
Qed.

(** The calling loop never adds a record for a URL all of whose requests
    fail. *)
Lemma collect_absent (url : string) :
  (forall n, request_failure (service n url) = true) ->
  forall (urls : list string) (results res : list (string * Q)) (w w' : world),
    collect service urls results w = Returns (res, w') ->
    Forall (fun r => fst r <> url) results ->
    Forall (fun r => fst r <> url) res.
Proof.
  intros Hfail. induction urls as [|endpoint urls IH]; intros results res w w' Hc Hres.
  - cbn in Hc. now inversion Hc; subst.
  - cbn [collect] in Hc. unfold iobind at 1 in Hc.
    destruct (String.eqb_spec endpoint url) as [-> | Hne].
    + destruct (measure_response_time_all_failed url default_repetitions w)
        as (w1 & Hm & _); [intros; apply Hfail |].
      rewrite Hm in Hc. cbn [bind] in Hc. eapply IH; eassumption.
    + destruct (measure_response_time service endpoint default_repetitions w)
        as [[[t|] w1] | e]; cbn [bind] in Hc; [| | discriminate].
      * eapply IH; [eassumption |].
        apply Forall_app. split; [assumption |].
        constructor; [exact Hne | constructor].
      * eapply IH; eassumption.
Qed.

(** C4.  A URL whose attempts all fail (with request-level failures): the
    sampler returns [None], not a number and not an exception, after
    exactly [repetitions] requests; the calling loop goes on to the next
    URL with its list of records unchanged; and when every request to the
    URL fails, no row of the text the script appends to the CSV file is a
    record of that URL. *)
Theorem all_failed_no_record (url : string) (repetitions : nat) (w : world) :
  (forall j, j < repetitions ->
             request_failure (service (requests_sent w + j) url) = true) ->
  exists w',
    measure_response_time service url repetitions w = Returns (None, w') /\
    requests_sent w' = requests_sent w + repetitions /\
    (repetitions = default_repetitions ->
     forall rest results,
       collect service (url :: rest) results w = collect service rest results w') /\
    ((forall n, request_failure (service n url) = true) ->
     forall rnd file text out,
       main rnd service file = Returns (text, out) ->
       exists results,
         text = append_results file results /\
         Forall (fun r => fst r <> url) results).
Proof.
  intros H.
  destruct (measure_response_time_all_failed url repetitions w H) as (w' & Hm & Hs).
  exists w'. split; [exact Hm |]. split; [exact Hs |]. split.
  - intros -> rest results. cbn [collect]. unfold iobind at 1.
    now rewrite Hm.
  - intros Hall rnd file text out Hmain. unfold main in Hmain.
    destruct (BuildUrl.expand_endpoints rnd) as [urls | e]; [| discriminate].
    cbn [bind] in Hmain.
    destruct (collect service urls [] (World 0 [])) as [[results w1] | e] eqn:Hc;
      [| discriminate].
    cbn [bind] in Hmain. unfold iobind, print in Hmain. cbn [bind] in Hmain.
    match type of Hmain with
    | context [print_summary results ?w2] =>
        destruct (print_summary_returns results w2) as (w3 & Hp)
    end.
    rewrite Hp in Hmain. cbn [bind] in Hmain. inversion Hmain; subst.
    exists results. split; [reflexivity |].
    eapply collect_absent; [exact Hall | exact Hc | constructor].
Qed.

End Service.

(** Three attempts against the flaky service: the second one times out. *)
Lemma failed_attempts_are_skipped_witness :
  (forall j, j < 3 ->
     request_level (flaky_service (requests_sent (World 0 []) + j) "http://localhost:8010/api/person/A5105622035") = true) /\
  exists w',
    measure_loop flaky_service "http://localhost:8010/api/person/A5105622035" 3 (seq 0 3) [] (World 0 [])
    = Returns ([1 # 10; 3 # 10]%Q, w') /\
    requests_sent w' = 3 /\
    List.length (stdout w') = 3.
Proof.
  assert (H : forall j, j < 3 ->
     request_level (flaky_service (requests_sent (World 0 []) + j) "http://localhost:8010/api/person/A5105622035") = true).
  { intros j Hj. destruct j as [|[|[|j]]]; [reflexivity.. | lia]. }
  split; [exact H |].
  destruct (failed_attempts_are_skipped flaky_service
              "http://localhost:8010/api/person/A5105622035" 3 (World 0 []) H)
    as (w' & Hloop & _ & Hsent & Hout).
  exists w'. split; [exact Hloop |]. split; [exact Hsent | exact Hout].
Defined.

(** Two successes out of three: the mean of 0.1 s and 0.3 s. *)
Lemma mean_of_successful_attempts_witness :
  (forall j, j < 3 ->
     request_level (flaky_service (requests_sent (World 0 []) + j) "http://localhost:8010/api/person/A5105622035") = true) /\
  successes (attempt_replies flaky_service "http://localhost:8010/api/person/A5105622035" 0 3) <> [] /\
  exists m w',
    measure_response_time flaky_service "http://localhost:8010/api/person/A5105622035" 3 (World 0 [])
    = Returns (Some m, w') /\
    (m == ((1 # 10) + (3 # 10)) / 2)%Q.
Proof.
  assert (H : forall j, j < 3 ->
     request_level (flaky_service (requests_sent (World 0 []) + j) "http://localhost:8010/api/person/A5105622035") = true).
  { intros j Hj. destruct j as [|[|[|j]]]; [reflexivity.. | lia]. }
  split; [exact H |]. split; [discriminate |].
  destruct (mean_of_successful_attempts flaky_service
              "http://localhost:8010/api/person/A5105622035" 3 (World 0 []) H)
    as (m & w' & Hrun & _ & Htwo); [discriminate |].
  exists m, w'. split; [exact Hrun | apply Htwo; reflexivity].
Defined.

(** Three attempts against the dead service. *)
Lemma all_failed_no_record_witness :
  (forall j, j < 3 ->
     request_failure (dead_service (requests_sent (World 0 []) + j) "http://localhost:8010/api/search/works?keywords=ai") = true) /\
  exists w',
    measure_response_time dead_service "http://localhost:8010/api/search/works?keywords=ai" 3 (World 0 [])
    = Returns (None, w') /\
    requests_sent w' = 3 /\
    forall rest results,
      collect dead_service ("http://localhost:8010/api/search/works?keywords=ai" :: rest) results (World 0 [])
      = collect dead_service rest results w'.
Proof.
  split; [intros j _; reflexivity |].
  destruct (all_failed_no_record dead_service
              "http://localhost:8010/api/search/works?keywords=ai" 3 (World 0 []))
    as (w' & Hrun & Hsent & Hloop & _); [intros j _; reflexivity |].
  exists w'. split; [exact Hrun |]. split; [exact Hsent | exact (Hloop eq_refl)].
Defined.

End ResponseTimeProps.

(* ===================================================================== *)
(** * Properties of the CSV file: writing, and reading back *)
(* ===================================================================== *)

Module CsvProps.
Import PyStr Py PyNum BuildUrl ResponseTime Report.
Import BuildUrlObs CsvObs PyStrFacts PyNumFacts BuildUrlProps.

Lemma format_3f_shape (q : Q) :
  exists sign ip fp,
    format_3f q = sign ++ ip ++ "." ++ fp /\
    (sign = "" \/ sign = "-") /\
    ip <> "" /\ all_digits ip = true /\
    String.length fp = 3 /\ all_digits fp = true.
Proof.
  unfold format_3f.
  set (a := Z.abs_N (round_half_even (q * 1000))).
  exists (if (Qnum q <? 0)%Z then "-" else ""), (string_of_N (a / 1000)), (frac3 a).
  split; [reflexivity |].
  split; [destruct (Qnum q <? 0)%Z; auto |].
  split.
  { destruct (string_of_N_head (a / 1000)) as (c & s & -> & _). discriminate. }
  split; [apply all_digits_string_of_N |].
  split; [reflexivity | apply all_digits_frac3].
Qed.

(** The text of a formatted time holds digits, a point and a sign only. *)
Lemma format_3f_free (c : ascii) (q : Q) :
  is_digit c = false -> c <> "-"%char -> c <> "."%char ->
  free_of c (format_3f q) = true.
Proof.
  intros Hd Hm Hp.
  destruct (format_3f_shape q) as (sign & ip & fp & -> & Hs & _ & Hip & _ & Hfp).
  rewrite !free_of_app.
  rewrite (all_digits_free c ip Hd Hip), (all_digits_free c fp Hd Hfp).
  assert (Hpt : free_of c "." = true).
  { cbn. destruct (Ascii.eqb_spec c "."); [contradiction | reflexivity]. }
  rewrite Hpt.
  destruct Hs as [-> | ->]; [reflexivity |].
  cbn. destruct (Ascii.eqb_spec c "-"); [contradiction | reflexivity].
Qed.

Lemma format_3f_plain (q : Q) : plain (format_3f q) = true.
Proof.
  unfold plain, needs_quote. rewrite negb_involutive.
  now rewrite !format_3f_free by (reflexivity || discriminate).
Qed.

Lemma csv_cell_plain (cell : string) : plain cell = true -> csv_cell cell = cell.
Proof.
  unfold plain, csv_cell. intros H.
  destruct (needs_quote cell); [discriminate | reflexivity].
Qed.

Lemma plain_free (cell : string) :
  plain cell = true ->
  free_of comma cell = true /\ free_of dquote cell = true /\
  free_of CR cell = true /\ free_of LF cell = true.
Proof.
  unfold plain, needs_quote. rewrite negb_involutive. intros H.
  apply andb_prop in H as [H H4]. apply andb_prop in H as [H H3].
  apply andb_prop in H as [H1 H2]. auto.
Qed.

Lemma record_line_body (r : string * Q) : record_line r = line_body r ++ CRLF.
Proof.
  unfold record_line, csv_line, line_body. cbn [join_cells].
  now rewrite (csv_cell_plain _ (format_3f_plain (snd r))).
Qed.

Lemma header_line_text :
  header_line = "url,average_time" ++ CRLF.
Proof. reflexivity. Qed.


(** Two splits of a text with tails of one length have the same tail. *)
Lemma append_tail_inj (a a' b b' : string) :
  a ++ b = a' ++ b' -> String.length b = String.length b' -> b = b'.
Proof.
  revert a'. induction a as [|c a IH]; intros [|c' a'] Heq Hlen; cbn in Heq.
  - exact Heq.
  - exfalso. apply (f_equal String.length) in Heq.
    cbn [String.length] in Heq. rewrite length_append in Heq. lia.
  - exfalso. apply (f_equal String.length) in Heq.
    cbn [String.length] in Heq. rewrite length_append in Heq. lia.
  - injection Heq as _ Heq. now apply (IH a').
Qed.

(** A row of a record is never the header row: it ends in a digit. *)
Lemma record_line_not_header (r : string * Q) : record_line r <> header_line.
Proof.
  rewrite record_line_body. unfold line_body, format_3f.
  set (a := Z.abs_N (round_half_even (snd r * 1000))).
  set (sign := if (Qnum (snd r) <? 0)%Z then "-" else "").
  intros Heq.
  assert (Hshape :
    (csv_cell (fst r) ++ String comma (sign ++ string_of_N (a / 1000) ++ "."))
      ++ (frac3 a ++ CRLF)
    = (csv_cell (fst r) ++
         String comma (sign ++ string_of_N (a / 1000) ++ "." ++ frac3 a)) ++ CRLF).
  { rewrite !append_assoc. cbn [String.append]. now rewrite !append_assoc. }
  rewrite <- Hshape in Heq.
  change header_line with ("url,average_t" ++ ("ime" ++ CRLF)) in Heq.
  apply append_tail_inj in Heq; [| reflexivity].
  unfold frac3 in Heq. cbn in Heq. injection Heq as Hc _.
  pose proof (is_digit_digit_char ((a / 100) mod 10) (mod10_lt _)) as Hd.
  rewrite Hc in Hd. discriminate.
Qed.

Lemma record_lines_app (r1 r2 : list (string * Q)) :
  record_lines (r1 ++ r2) = record_lines r1 ++ record_lines r2.
Proof.
  induction r1 as [|r r1 IH]; [reflexivity |].
  cbn [app record_lines]. now rewrite IH, append_assoc.
Qed.

(** Runs that find the file append their rows to it and nothing else. *)
Lemma accumulate_some (text : string) (batches : list (list (string * Q))) :
  accumulate (Some text) batches = Some (text ++ record_lines (concat batches)).
Proof.
  revert text. induction batches as [|b batches IH]; intros text.
  - cbn. now rewrite append_nil_r.
  - change (accumulate (Some text) (b :: batches))
      with (accumulate (Some (text ++ record_lines b)) batches).
    rewrite IH. cbn [concat]. now rewrite record_lines_app, append_assoc.
Qed.

(** Runs that start without the file leave what one run with all their
    records would leave. *)
Lemma accumulate_none (first : list (string * Q)) (batches : list (list (string * Q))) :
  accumulate None (first :: batches)
  = Some (append_results None (concat (first :: batches))).
Proof.
  change (accumulate None (first :: batches))
    with (accumulate (Some (append_results None first)) batches).
  rewrite accumulate_some. cbn [concat append_results].
  now rewrite record_lines_app, append_assoc.
Qed.

(** The formatted time is the time to the nearest thousandth of a second. *)
Lemma stored_time_error (q : Q) :
  (stored_time q - (1 # 2000) <= q /\ q <= stored_time q + (1 # 2000))%Q.
Proof.
  unfold stored_time, round_half_even. cbn [Qmult Qnum Qden].
  rewrite Pos.mul_1_r.
  destruct q as [n d]. cbn [Qnum Qden].
  set (N := (n * 1000)%Z). set (D := Zpos d).
  assert (HD : (0 < D)%Z) by apply Pos2Z.is_pos.
  pose proof (Z.div_mod N D ltac:(lia)) as Hdm.
  pose proof (Z.mod_pos_bound N D HD) as Hb.
  unfold Qle, Qminus, Qplus, Qopp. cbn [Qnum Qden].
  fold D. rewrite !Pos2Z.inj_mul. fold D.
  destruct (Z.ltb_spec (2 * (N mod D)) D), (Z.ltb_spec D (2 * (N mod D))),
    (Z.even (N / D)); unfold N in *; split; nia.
Qed.


(** The rows the writer appends are the rows of the records, in order. *)
Lemma record_lines_text (results : list (string * Q)) :
  record_lines results = rows_text results.
Proof.
  induction results as [|r results IH]; [reflexivity |].
  cbn [record_lines]. rewrite IH, record_line_body.
  unfold rows_text. cbn [List.map fold_right]. unfold row_text, line_body, comma.
  rewrite !append_assoc. cbn [String.append]. now rewrite ?append_assoc.
Qed.

(** The text of a formatted time, part by part. *)
Lemma format_3f_parts (t : Q) :
  exists ip fp,
    format_3f t = (if (Qnum t <? 0)%Z then "-" else "") ++ ip ++ "." ++ fp /\
    all_digits ip = true /\
    (ip = "0" \/ exists c s, ip = String c s /\ c <> "0"%char) /\
    all_digits fp = true /\ String.length fp = 3 /\
    digits_value (ip ++ fp) 0 = Some (Z.abs_N (round_half_even (t * 1000))).
Proof.
  unfold format_3f.
  set (a := Z.abs_N (round_half_even (t * 1000))).
  exists (string_of_N (a / 1000)), (frac3 a).
  split; [reflexivity |].
  split; [apply all_digits_string_of_N |].
  split; [apply string_of_N_canonical |].
  split; [apply all_digits_frac3 |].
  split; [reflexivity | apply digits_value_format].
Qed.

(** C8.  What the script leaves in the CSV file, character by character.
    When the file does not exist the text is the header row
    [url,average_time] followed by one row per record, in order; when it
    exists the text is the old one followed by one row per record, with no
    header; so after any number of runs the text is one header row followed
    by the rows of all the records of all the runs, and no row of a record
    is the header row.  The row of a record is its URL cell (the URL itself
    when it needs no quoting), a comma, the average and CR LF.  The average
    is written as a minus sign when it is negative, the digits of the whole
    seconds without leading zeros, a point and exactly three digits, the
    digits together being the number of thousandths nearest to the average
    (ties to even): read back, it is the average in seconds to the nearest
    thousandth. *)
Theorem csv_append_format :
  (forall results,
      append_results None results
      = "url,average_time" ++ CRLF ++ rows_text results) /\
  (forall text results,
      append_results (Some text) results = text ++ rows_text results) /\
  (forall first batches,
      accumulate None (first :: batches)
      = Some ("url,average_time" ++ CRLF ++ rows_text (concat (first :: batches)))) /\
  (forall r results,
      rows_text (r :: results) = row_text r ++ rows_text results) /\
  (forall r, row_text r <> "url,average_time" ++ CRLF) /\
  (forall r,
      plain (fst r) = true ->
      row_text r = fst r ++ "," ++ format_3f (snd r) ++ CRLF) /\
  (forall t, exists ip fp,
      format_3f t = (if (Qnum t <? 0)%Z then "-" else "") ++ ip ++ "." ++ fp /\
      all_digits ip = true /\
      (ip = "0" \/ exists c s, ip = String c s /\ c <> "0"%char) /\
      all_digits fp = true /\ String.length fp = 3 /\
      digits_value (ip ++ fp) 0 = Some (Z.abs_N (round_half_even (t * 1000))) /\
      parse_decimal (format_3f t) = Some (stored_time t) /\
      (stored_time t - (1 # 2000) <= t)%Q /\ (t <= stored_time t + (1 # 2000))%Q).
Proof.
  split.
  { intros results. cbn [append_results].
    now rewrite header_line_text, record_lines_text, append_assoc. }
  split.
  { intros text results. cbn [append_results]. now rewrite record_lines_text. }
  split.
  { intros first batches. rewrite accumulate_none.
    cbn [append_results].
    now rewrite header_line_text, record_lines_text, append_assoc. }
  split; [reflexivity |].
  split.
  { intros r Heq. apply (record_line_not_header r).
    rewrite header_line_text, <- Heq.
    pose proof (record_lines_text [r]) as Hr.
    unfold rows_text in Hr. cbn [record_lines List.map fold_right] in Hr.
    now rewrite !append_nil_r in Hr. }
  split.
  { intros r Hpl. unfold row_text. now rewrite (csv_cell_plain _ Hpl). }
  intros t. destruct (format_3f_parts t) as (ip & fp & Hf & Hip & Hz & Hfp & Hl & Hv).
  exists ip, fp. repeat split; try assumption.
  - apply parse_decimal_format_3f.
  - apply stored_time_error.
  - apply stored_time_error.
Qed.

End CsvProps.

(* ===================================================================== *)
(** * The round trip from the sampler's CSV to the reporter's table *)
(* ===================================================================== *)

Module RoundTripProps.
Import PyStr Py PyNum BuildUrl ResponseTime Report.
Import BuildUrlObs ResponseTimeObs CsvObs.
Import PyStrFacts PyNumFacts BuildUrlProps CsvProps.

(** A text without an occurrence of the pattern is left as it is. *)
Lemma replace_from_absent (old new s : string) :
  str_in old s = false -> replace_from old new s 0 = s.
Proof.
  induction s as [|d s IH]; intros H; [reflexivity |].
  cbn [str_in] in H. apply orb_false_elim in H as [Hp Hs].
  cbn [replace_from]. rewrite Hp. now rewrite IH.
Qed.

(** Removing the API prefix from a URL that starts with it and holds it
    nowhere else leaves the rest of the URL. *)
Lemma replace_api_prefix (rest : string) :
  str_in API_PREFIX rest = false ->
  replace (API_PREFIX ++ rest) API_PREFIX "" = rest.
Proof.
  intros H. unfold replace, API_PREFIX.
  rewrite (replace_from_match "h" "ttp://localhost:8010/api/" "" rest).
  now apply replace_from_absent.
Qed.

(** The first piece of a split at a character: it is free of the character,
    and the text is that piece, alone or followed by the character and the
    rest. *)
Lemma split_from_first (c : ascii) (s : string) :
  exists p ps,
    split_from (String c "") s 0 = p :: ps /\
    free_of c p = true /\
    (s = p \/ exists q, s = p ++ String c q).
Proof.
  induction s as [|d s (p & ps & Hs & Hf & Hq)].
  - exists "", []. repeat split. now left.
  - cbn [split_from].
    destruct (ascii_dec c d) as [<- | Hne].
    + replace (String.prefix (String c "") (String c s)) with true
        by (symmetry; exact (prefix_refl_app (String c "") s)).
      exists "", (split_from (String c "") s (String.length (String c "") - 1)).
      repeat split. right. now exists s.
    + rewrite (prefix_head_ne c d "" s Hne), Hs.
      exists (String d p), ps. split; [reflexivity |]. split.
      * rewrite free_of_cons, Hf.
        destruct (Ascii.eqb_spec c d); [contradiction | reflexivity].
      * destruct Hq as [-> | [q ->]]; [now left | right; now exists q].
Qed.

Lemma extract_base_endpoint_spec (endpoint : string) :
  free_of "?" (extract_base_endpoint endpoint) = true /\
  (endpoint = extract_base_endpoint endpoint \/
   exists query, endpoint = extract_base_endpoint endpoint ++ "?" ++ query).
Proof.
  unfold extract_base_endpoint, split.
  destruct (split_from_first "?" endpoint) as (p & ps & -> & Hf & Hq).
  split; [exact Hf |].
  destruct Hq as [-> | [q ->]]; [now left | right; now exists q].
Qed.


(** A concrete URL: unquoted, the API prefix at its head and nowhere else. *)
Ltac api_url :=
  split;
  [ now vm_compute
  | eexists; split;
    [ unfold API_PREFIX; cbn [String.append]; reflexivity | now vm_compute ] ].

(** Every URL of the generator is written unquoted, starts with the API
    prefix and holds it nowhere else. *)
Lemma generator_url_facts (u : string) :
  generator_url u ->
  plain u = true /\
  exists rest, u = API_PREFIX ++ rest /\ str_in API_PREFIX rest = false.
Proof.
  intros (rnd & urls & Hr & Hin).
  rewrite expand_endpoints_generated in Hr. inversion Hr; subst urls; clear Hr.
  name_draws rnd apc person works Ha Hp Hw.
  unfold generated in Hin. cbn [In] in Hin.
  repeat (destruct Hin as [<- | Hin];
          [ first [ api_url
                  | one_of_four Ha; api_url
                  | one_of_four Hp; api_url
                  | one_of_four Hw; api_url ] |]).
  contradiction.
Qed.

(** Every URL of the generator is read back as text. *)
Lemma generator_url_text (u : string) : generator_url u -> text_cell u = true.
Proof.
  intros (rnd & urls & Hr & Hin).
  rewrite expand_endpoints_generated in Hr. inversion Hr; subst urls; clear Hr.
  name_draws rnd apc person works Ha Hp Hw.
  unfold generated in Hin. cbn [In] in Hin.
  repeat (destruct Hin as [<- | Hin];
          [ first [ now vm_compute
                  | one_of_four Ha; now vm_compute
                  | one_of_four Hp; now vm_compute
                  | one_of_four Hw; now vm_compute ] |]).
  contradiction.
Qed.

(** ** Reading back what the writer wrote *)

Lemma line_body_free (c : ascii) (r : string * Q) :
  plain (fst r) = true ->
  free_of c (fst r) = true -> c <> comma ->
  is_digit c = false -> c <> "-"%char -> c <> "."%char ->
  free_of c (line_body r) = true.
Proof.
  intros Hpl Hu Hc Hd Hm Hp. unfold line_body.
  rewrite (csv_cell_plain _ Hpl), free_of_app, Hu, free_of_cons.
  rewrite format_3f_free by assumption.
  destruct (Ascii.eqb_spec c comma); [contradiction | reflexivity].
Qed.

Lemma record_lines_free_dquote (results : list (string * Q)) :
  Forall (fun r => plain (fst r) = true) results ->
  free_of dquote (record_lines results) = true.
Proof.
  induction 1 as [|r results Hr _ IH]; [reflexivity |].
  cbn [record_lines]. rewrite record_line_body, !free_of_app, IH.
  destruct (plain_free _ Hr) as (_ & Hq & _ & _).
  rewrite line_body_free; try assumption; try reflexivity; discriminate.
Qed.

(** The lines of the rows written, and the empty piece after the last
    terminator. *)
Lemma record_lines_split (results : list (string * Q)) :
  Forall (fun r => plain (fst r) = true) results ->
  split_from line_end (record_lines results) 0
  = (List.map line_body results ++ [""])%list.
Proof.
  induction 1 as [|r results Hr _ IH]; [reflexivity |].
  cbn [record_lines List.map app]. rewrite record_line_body, append_assoc.
  destruct (plain_free _ Hr) as (_ & _ & Hcr & _).
  change (split_from line_end (line_body r ++ CRLF ++ record_lines results) 0)
    with (split_from (String CR (String LF ""))
            (line_body r ++ String CR (String LF "") ++ record_lines results) 0).
  rewrite (split_from_app_free CR (String LF "") (line_body r)).
  - change (String CR (String LF "")) with line_end. now rewrite IH.
  - apply line_body_free; try assumption; try reflexivity; discriminate.
Qed.

Lemma line_body_nonempty (r : string * Q) :
  negb (String.eqb (line_body r) "") = true.
Proof. unfold line_body. now destruct (csv_cell (fst r)). Qed.

Lemma filter_line_bodies (results : list (string * Q)) :
  List.filter (fun l => negb (String.eqb l "")) (List.map line_body results ++ [""])
  = List.map line_body results.
Proof.
  induction results as [|r results IH]; [reflexivity |].
  cbn [List.map app List.filter]. now rewrite line_body_nonempty, IH.
Qed.

Lemma read_row_line_body (r : string * Q) :
  plain (fst r) = true -> text_cell (fst r) = true ->
  read_row 2 0 1 (line_body r) = Some (stored r).
Proof.
  intros Hpl Hcolon. destruct (plain_free _ Hpl) as (Hc & _ & _ & _).
  unfold read_row, split_pieces, split, line_body.
  rewrite (csv_cell_plain _ Hpl). unfold comma in *.
  change (String "," (format_3f (snd r)))
    with (String "," "" ++ format_3f (snd r)).
  rewrite (split_from_app_free "," "" (fst r) (format_3f (snd r)) Hc).
  rewrite split_from_free
    by (apply format_3f_free; [reflexivity | discriminate | discriminate]).
  cbn [List.length Nat.eqb nth_error].
  now rewrite Hcolon, parse_decimal_format_3f.
Qed.

Lemma read_rows_line_bodies (results : list (string * Q)) :
  Forall (fun r => plain (fst r) = true /\ text_cell (fst r) = true) results ->
  read_rows 2 0 1 (List.map line_body results) = Some (List.map stored results).
Proof.
  induction 1 as [|r results [Hr Hc] _ IH]; [reflexivity |].
  cbn [List.map read_rows]. now rewrite read_row_line_body, IH.
Qed.

(** The reader gives back the records the writer was given, each time
    rounded to the thousandth. *)
Lemma read_csv_written (results : list (string * Q)) :
  Forall (fun r => plain (fst r) = true /\ text_cell (fst r) = true) results ->
  read_csv (append_results None results) = Some (List.map stored results).
Proof.
  intros Hboth.
  assert (Hpl : Forall (fun r => plain (fst r) = true) results)
    by (eapply List.Forall_impl; [| exact Hboth]; now intros r [H _]).
  unfold read_csv, append_results.
  assert (Hq : free_of "034" (header_line ++ record_lines results) = true).
  { rewrite free_of_app.
    now rewrite (record_lines_free_dquote results Hpl : free_of "034" _ = true). }
  rewrite Hq, header_line_text, append_assoc.
  unfold split_pieces, split.
  change line_end with (String CR (String LF "")) at 1.
  change CRLF with (String CR (String LF "")).
  rewrite (split_from_app_free CR (String LF "") "url,average_time") by reflexivity.
  change (String CR (String LF "")) with line_end.
  rewrite (record_lines_split results Hpl).
  cbn [List.filter String.eqb negb]. rewrite filter_line_bodies.
  cbn. now apply read_rows_line_bodies.
Qed.


(** The records the calling loop collects are records of the URLs it was
    given. *)
Lemma collect_urls (service : nat -> string -> reply) (all : list string) :
  forall (urls : list string) (results res : list (string * Q)) (w w' : world),
    collect service urls results w = Returns (res, w') ->
    (forall u, In u urls -> In u all) ->
    Forall (fun r => In (fst r) all) results ->
    Forall (fun r => In (fst r) all) res.
Proof.
  induction urls as [|endpoint urls IH]; intros results res w w' Hc Hsub Hres.
  - cbn in Hc. now inversion Hc; subst.
  - cbn [collect] in Hc. unfold iobind at 1 in Hc.
    destruct (measure_response_time service endpoint default_repetitions w)
      as [[[t|] w1] | e]; cbn [bind] in Hc; [| | discriminate].
    + eapply IH; [eassumption | intros u Hu; apply Hsub; now right |].
      apply Forall_app. split; [assumption |].
      constructor; [apply Hsub; now left | constructor].
    + eapply IH; [eassumption | intros u Hu; apply Hsub; now right | assumption].
Qed.

(** Every row a run of the script appends is a record of a generator URL. *)
Lemma main_appends_generator_urls (rnd : nat -> nat)
    (service : nat -> string -> reply) (file : option string)
    (text : string) (out : list string) :
  main rnd service file = Returns (text, out) ->
  exists results,
    text = append_results file results /\
    Forall (fun r => generator_url (fst r)) results.
Proof.
  intros Hmain. unfold main in Hmain.
  destruct (expand_endpoints rnd) as [urls | e] eqn:He; [| discriminate].
  cbn [bind] in Hmain.
  destruct (collect service urls [] (World 0 [])) as [[results w1] | e] eqn:Hc;
    [| discriminate].
  cbn [bind] in Hmain. unfold iobind, print in Hmain. cbn [bind] in Hmain.
  match type of Hmain with
  | context [print_summary results ?w2] =>
      destruct (ResponseTimeProps.print_summary_returns results w2) as (w3 & Hp)
  end.
  rewrite Hp in Hmain. cbn [bind] in Hmain. inversion Hmain; subst.
  exists results. split; [reflexivity |].
  pose proof (collect_urls service urls urls [] results _ _ Hc
                (fun u H => H) (List.Forall_nil _)) as Hall.
  eapply List.Forall_impl; [| exact Hall].
  intros r Hr. now exists rnd, urls.
Qed.

(** C6.  Records of generator URLs, written to the CSV file by any number
    of runs of the sampler's caller, the first of which finds no file, and
    loaded by the reporter: the loader returns one row per record, in
    order; the row holds the URL as written and the average as written
    (rounded to the thousandth); its [response_time_ms] is that average
    times 1000; its [clean_endpoint] is the URL without the prefix
    [http://localhost:8010/api/], so that the prefix followed by it is the
    URL again; and its [base_endpoint] is free of '?' and is the clean
    endpoint itself or what stands before its first '?'. *)
Theorem csv_round_trip (first : list (string * Q)) (batches : list (list (string * Q))) :
  Forall (fun r => generator_url (fst r)) (concat (first :: batches)) ->
  exists text rows,
    accumulate None (first :: batches) = Some text /\
    load_and_clean_data text = Some rows /\
    Forall2
      (fun r row =>
         row_url row = fst r /\
         row_average_time row = stored_time (snd r) /\
         response_time_ms row = (row_average_time row * 1000)%Q /\
         clean_endpoint row = replace (fst r) API_PREFIX "" /\
         fst r = API_PREFIX ++ clean_endpoint row /\
         base_endpoint row = extract_base_endpoint (clean_endpoint row) /\
         free_of "?" (base_endpoint row) = true /\
         (clean_endpoint row = base_endpoint row \/
          exists query, clean_endpoint row = base_endpoint row ++ "?" ++ query))
      (concat (first :: batches)) rows.
Proof.
  generalize (concat (first :: batches)) (accumulate_none first batches).
  intros results Hacc Hgen.
  assert (Hpl : Forall (fun r => plain (fst r) = true /\ text_cell (fst r) = true)
                       results).
  { eapply List.Forall_impl; [| exact Hgen].
    intros r Hr. split; [now destruct (generator_url_facts _ Hr) |].
    now apply generator_url_text. }
  exists (append_results None results),
         (List.map clean_measurement (List.map stored results)).
  split; [exact Hacc |]. split.
  - unfold load_and_clean_data. now rewrite read_csv_written.
  - clear Hpl Hacc. induction Hgen as [|r results Hr _ IH]; [constructor |].
    cbn [List.map]. constructor; [| exact IH].
    destruct (generator_url_facts _ Hr) as (_ & rest & Hu & Hrest).
    unfold clean_measurement, stored.
    cbn [url average_time row_url row_average_time response_time_ms
         clean_endpoint base_endpoint].
    rewrite Hu, (replace_api_prefix rest Hrest).
    destruct (extract_base_endpoint_spec rest) as [Hf Hq].
    repeat split; assumption.
Qed.

(** Two runs: the first records a third of a second for a works search,
    the second a sixteenth of a second for an apc search. *)
Lemma csv_round_trip_witness :
  Forall (fun r => generator_url (fst r))
         (concat [ [("http://localhost:8010/api/search/works?keywords=ai", (1 # 3)%Q)];
                   [("http://localhost:8010/api/apc/search?keywords=500", (1 # 16)%Q)] ]) /\
  exists text row1 row2,
    accumulate None
      [ [("http://localhost:8010/api/search/works?keywords=ai", (1 # 3)%Q)];
        [("http://localhost:8010/api/apc/search?keywords=500", (1 # 16)%Q)] ]
    = Some text /\
    load_and_clean_data text = Some [row1; row2] /\
    row_average_time row1 = (333 # 1000)%Q /\
    clean_endpoint row1 = "search/works?keywords=ai" /\
    base_endpoint row1 = "search/works" /\
    row_average_time row2 = (62 # 1000)%Q /\
    clean_endpoint row2 = "apc/search?keywords=500" /\
    base_endpoint row2 = "apc/search".
Proof.
  assert (H : Forall (fun r => generator_url (fst r))
         (concat [ [("http://localhost:8010/api/search/works?keywords=ai", (1 # 3)%Q)];
                   [("http://localhost:8010/api/apc/search?keywords=500", (1 # 16)%Q)] ])).
  { cbn [concat app].
    constructor; [| constructor; [| constructor]];
      (exists (fun k => if Nat.eqb k 0 then 0 else 2); eexists;
       split; [vm_compute; reflexivity | vm_compute; tauto]). }
  split; [exact H |].
  destruct (csv_round_trip _ _ H) as (text & rows & Hacc & Hload & Hrows).
  cbn [concat app] in Hrows.
  inversion Hrows as [| r1 row1 rs1 rows1 Hrow1 Hrest1]; subst.
  inversion Hrest1 as [| r2 row2 rs2 rows2 Hrow2 Hrest2]; subst.
  inversion Hrest2; subst.
  destruct Hrow1 as (_ & Ht1 & _ & Hc1 & _ & Hb1 & _).
  destruct Hrow2 as (_ & Ht2 & _ & Hc2 & _ & Hb2 & _).
  exists text, row1, row2.
  split; [exact Hacc |]. split; [exact Hload |].
  split; [rewrite Ht1; reflexivity |].
  split; [rewrite Hc1; reflexivity |].
  split; [rewrite Hb1, Hc1; reflexivity |].
  split; [rewrite Ht2; reflexivity |].
  split; [rewrite Hc2; reflexivity |].
  rewrite Hb2, Hc2. reflexivity.
Defined.

End RoundTripProps.

(* ===================================================================== *)
(** * Further properties of the URL generator *)
(* ===================================================================== *)

Module BuildUrlMore.
Import PyStr Py BuildUrl BuildUrlObs PyStrFacts BuildUrlProps.

(** ** Substring facts *)

Lemma prefix_inv (p s : string) :
  String.prefix p s = true -> exists r, s = p ++ r.
Proof.
  revert s. induction p as [|c p IH]; intros s H.
  - now exists s.
  - destruct s as [|d s]; [discriminate |]. cbn in H.
    destruct (ascii_dec c d) as [<- |]; [| discriminate].
    destruct (IH s H) as [r ->]. now exists r.
Qed.

Lemma str_in_prefix (q s : string) :
  String.prefix q s = true -> str_in q s = true.
Proof. intros H. destruct s; cbn [str_in]; now rewrite H. Qed.

Lemma str_in_app_r (q a x : string) :
  str_in q x = true -> str_in q (a ++ x) = true.
Proof.
  intros H. induction a as [|c a IH]; [exact H |].
  change (String c a ++ x) with (String c (a ++ x)).
  cbn [str_in]. rewrite IH. apply orb_true_r.
Qed.

Lemma str_in_app_free (c : ascii) (q a s : string) :
  free_of c a = true -> str_in (String c q) (a ++ s) = str_in (String c q) s.
Proof.
  induction a as [|d a IH]; intros Hf; [reflexivity |].
  apply free_of_head in Hf as [Hne Hf].
  change (String d a ++ s) with (String d (a ++ s)).
  cbn [str_in]. rewrite (prefix_head_ne c d q _ Hne). now rewrite IH.
Qed.

(** Replacing a bracketed pattern keeps the occurrences of another pattern
    with the same opening character, when that character stands nowhere
    else in either and neither pattern starts the other. *)
Section Survival.

Variable c : ascii.
Variables o q new : string.
Hypothesis o_free : free_of c o = true.
Hypothesis q_free : free_of c q = true.
Hypothesis distinct : forall r, String.prefix (String c q) (String c o ++ r) = false.

Lemma replace_from_keeps_bounded (n : nat) :
  forall s, String.length s <= n ->
    str_in (String c q) s = true ->
    str_in (String c q) (replace_from (String c o) new s 0) = true.
Proof.
  induction n as [|n IH]; intros s Hlen Hin.
  - destruct s; [| cbn in Hlen; lia]. cbn in Hin. discriminate.
  - destruct s as [|d s]; [cbn in Hin; discriminate |].
    destruct (String.prefix (String c o) (String d s)) eqn:Hold.
    + destruct (prefix_inv _ _ Hold) as [r Hr]. rewrite Hr in *.
      rewrite replace_from_match. apply str_in_app_r. apply IH.
      * change (String c o ++ r) with (String c (o ++ r)) in Hlen.
        cbn [String.length] in Hlen. rewrite length_append in Hlen. lia.
      * change (String c o ++ r) with (String c (o ++ r)) in Hin.
        cbn [str_in] in Hin.
        change (String c (o ++ r)) with (String c o ++ r) in Hin.
        rewrite distinct in Hin. cbn [orb] in Hin.
        now rewrite (str_in_app_free c q o r o_free) in Hin.
    + cbn [replace_from]. rewrite Hold.
      cbn [str_in] in Hin. apply orb_prop in Hin as [Hhere | Hlater].
      * destruct (prefix_inv _ _ Hhere) as [r Hr].
        change (String c q ++ r) with (String c (q ++ r)) in Hr.
        injection Hr as -> ->.
        rewrite (replace_from_app_free c o new q r q_free).
        apply str_in_prefix.
        change (String c (q ++ replace_from (String c o) new r 0))
          with (String c q ++ replace_from (String c o) new r 0).
        apply prefix_refl_app.
      * cbn [str_in]. rewrite (IH s); [apply orb_true_r | | exact Hlater].
        cbn [String.length] in Hlen. lia.
Qed.

Lemma replace_keeps (s : string) :
  str_in (String c q) s = true ->
  str_in (String c q) (replace s (String c o) new) = true.
Proof. intros H. unfold replace. now apply (replace_from_keeps_bounded (String.length s)). Qed.

End Survival.

(** ** The generator over arbitrary tables *)

Section Tables.

Variable base : string.
Variable types ids persons : list string.
Variable keywords : gmap string (list string).
Variable rnd : nat -> nat.

(** What one template yields: URLs that start with the base URL, and at
    most one draw. *)
Lemma expand_endpoint_yield (endpoint : string) (k k' : nat) (urls : list string) :
  expand_endpoint base types ids persons keywords rnd endpoint k = Returns (urls, k') ->
  (forall u, In u urls -> String.prefix base u = true) /\ k <= k' <= S k.
Proof.
  unfold expand_endpoint, ret, gbind, random_choice.
  destruct (str_in "<affiliation_type>" endpoint && str_in "<affiliation_id>" endpoint);
    [| destruct (str_in "<affiliation_id>" endpoint);
       [| destruct (str_in "<person_id>" endpoint);
          [| destruct (str_in "<affiliation_type>" endpoint);
             [| destruct (keywords !! endpoint) as [[|kw kws]|]]]]];
    cbn [bind]; intros H; inversion H; subst; clear H;
    (split; [| lia]); intros u Hu;
    try (apply in_map_iff in Hu as [x [<- _]]; try destruct x; apply prefix_refl_app);
    destruct Hu as [<- | []]; apply prefix_refl_app.
Qed.

Lemma expand_loop_append (e1 e2 : list string) :
  forall (urls : list string) (k : nat),
    expand_loop base types ids persons keywords rnd (e1 ++ e2) urls k
    = bind (expand_loop base types ids persons keywords rnd e1 urls k)
           (fun '(urls1, k1) =>
              expand_loop base types ids persons keywords rnd e2 urls1 k1).
Proof.
  induction e1 as [|e e1 IH]; intros urls k; [reflexivity |].
  cbn [app expand_loop]. unfold gbind.
  destruct (expand_endpoint base types ids persons keywords rnd e k) as [[new k1] | x];
    cbn [bind]; [apply IH | reflexivity].
Qed.

(** X2.  Whenever the loop returns, the URLs it was given come first,
    unchanged and in order; every URL it added starts with the base URL;
    and it made at most one draw per template. *)
Theorem expand_loop_extends (endpoints urls out : list string) (k k' : nat) :
  expand_loop base types ids persons keywords rnd endpoints urls k = Returns (out, k') ->
  exists new,
    out = (urls ++ new)%list /\
    (forall u, In u new -> String.prefix base u = true) /\
    k <= k' <= k + List.length endpoints.
Proof.
  revert urls k. induction endpoints as [|e endpoints IH]; intros urls k H.
  - cbn in H. inversion H; subst. exists []. rewrite app_nil_r.
    repeat split; [intros u [] | lia | simpl; lia].
  - cbn [expand_loop] in H. unfold gbind in H.
    destruct (expand_endpoint base types ids persons keywords rnd e k)
      as [[new1 k1] | x] eqn:He; cbn [bind] in H; [| discriminate].
    destruct (expand_endpoint_yield e k k1 new1 He) as [Hpre Hk].
    destruct (IH _ _ H) as (new2 & -> & Hpre2 & Hk2).
    exists (new1 ++ new2)%list. rewrite app_assoc.
    repeat split; [| lia | simpl; lia].
    intros u Hu. apply in_app_or in Hu as [Hu | Hu]; auto.
Qed.

(** X3.  A template without placeholder whose entry in the keyword map is
    the empty list: [random.choice] raises [IndexError], and so does the
    whole loop once it reaches that template, whatever it had generated
    before. *)
Theorem expand_empty_keywords_raises (endpoint : string) :
  str_in "<affiliation_type>" endpoint = false ->
  str_in "<affiliation_id>" endpoint = false ->
  str_in "<person_id>" endpoint = false ->
  keywords !! endpoint = Some [] ->
  (forall k,
      exists e, exn_cls e = IndexError /\
        expand_endpoint base types ids persons keywords rnd endpoint k = Raises e) /\
  (forall before after urls k urls1 k1,
      expand_loop base types ids persons keywords rnd before urls k
      = Returns (urls1, k1) ->
      exists e, exn_cls e = IndexError /\
        expand_loop base types ids persons keywords rnd
                    (before ++ endpoint :: after) urls k = Raises e).
Proof.
  intros Ht Hi Hp Hk.
  assert (Hone : forall k,
             expand_endpoint base types ids persons keywords rnd endpoint k
             = Raises (Exception IndexError "Cannot choose from an empty sequence")).
  { intros k. unfold expand_endpoint. now rewrite Ht, Hi, Hp, Hk. }
  split.
  - intros k. eexists. split; [| apply Hone]. reflexivity.
  - intros before after urls k urls1 k1 Hb.
    exists (Exception IndexError "Cannot choose from an empty sequence").
    split; [reflexivity |].
    rewrite expand_loop_append, Hb. cbn [bind expand_loop]. unfold gbind.
    now rewrite Hone.
Qed.

(** X4.  The single-placeholder branches.  A template with the
    affiliation-id placeholder and not the affiliation-type one yields one
    URL for each of the first three affiliation ids, fewer when the table
    holds fewer, in the order of the table; without the affiliation-id
    placeholder, a template with the person-id placeholder does the same
    with the person ids; neither makes a draw nor looks at the keyword
    map. *)
Theorem expand_single_placeholder (endpoint : string) (k : nat) :
  (str_in "<affiliation_id>" endpoint = true ->
   str_in "<affiliation_type>" endpoint = false ->
   exists urls,
     expand_endpoint base types ids persons keywords rnd endpoint k = Returns (urls, k) /\
     List.length urls = Nat.min 3 (List.length ids) /\
     forall j, j < Nat.min 3 (List.length ids) ->
       nth j urls "" = base ++ replace endpoint "<affiliation_id>" (nth j ids "")) /\
  (str_in "<affiliation_id>" endpoint = false ->
   str_in "<person_id>" endpoint = true ->
   exists urls,
     expand_endpoint base types ids persons keywords rnd endpoint k = Returns (urls, k) /\
     List.length urls = Nat.min 3 (List.length persons) /\
     forall j, j < Nat.min 3 (List.length persons) ->
       nth j urls "" = base ++ replace endpoint "<person_id>" (nth j persons "")).
Proof.
  assert (Hnth : forall (f : string -> string) (l : list string) j,
             j < Nat.min 3 (List.length l) ->
             nth j (List.map f (firstn 3 l)) "" = f (nth j l "")).
  { intros f l j Hj.
    rewrite (nth_indep _ "" (f "")) by (rewrite length_map, length_firstn; exact Hj).
    rewrite map_nth. f_equal.
    rewrite <- (firstn_skipn 3 l) at 2.
    rewrite app_nth1 by (rewrite length_firstn; exact Hj). reflexivity. }
  split.
  - intros Hi Ht. eexists. split; [| split].
    + unfold expand_endpoint. rewrite Hi, Ht. reflexivity.
    + now rewrite length_map, length_firstn.
    + intros j Hj. now rewrite Hnth.
  - intros Hi Hp. eexists. split; [| split].
    + unfold expand_endpoint. rewrite Hi, Hp, andb_false_r. reflexivity.
    + now rewrite length_map, length_firstn.
    + intros j Hj. now rewrite Hnth.
Qed.

(** X5.  The branches are tried in a fixed order and only one is taken, so
    a template that holds a second kind of placeholder keeps it: with the
    affiliation-id and the person-id placeholder (and not the
    affiliation-type one) every URL yielded still holds [<person_id>]; with
    the person-id and the affiliation-type placeholder (and not the
    affiliation-id one) every URL yielded still holds
    [<affiliation_type>]. *)
Theorem expand_keeps_second_placeholder (endpoint : string) (k k' : nat)
    (urls : list string) :
  expand_endpoint base types ids persons keywords rnd endpoint k = Returns (urls, k') ->
  (str_in "<affiliation_type>" endpoint = false ->
   str_in "<affiliation_id>" endpoint = true ->
   str_in "<person_id>" endpoint = true ->
   forall u, In u urls -> str_in "<person_id>" u = true) /\
  (str_in "<affiliation_id>" endpoint = false ->
   str_in "<person_id>" endpoint = true ->
   str_in "<affiliation_type>" endpoint = true ->
   forall u, In u urls -> str_in "<affiliation_type>" u = true).
Proof.
  intros H. split.
  - intros Ht Hi Hp u Hu. unfold expand_endpoint in H.
    rewrite Ht, Hi in H. cbn [andb] in H. inversion H; subst; clear H.
    apply in_map_iff in Hu as [i [<- _]].
    apply str_in_app_r.
    now apply (replace_keeps "<" "affiliation_id>" "person_id>" i).
  - intros Hi Hp Ht u Hu. unfold expand_endpoint in H.
    rewrite Ht, Hi, Hp in H. cbn [andb] in H. inversion H; subst; clear H.
    apply in_map_iff in Hu as [p [<- _]].
    apply str_in_app_r.
    now apply (replace_keeps "<" "person_id>" "affiliation_type>" p).
Qed.

End Tables.

(** A status URL in hand, then a keyword template and a person template of
    the script. *)
Lemma expand_loop_extends_witness :
  expand_loop BASE_URL AFFILIATION_TYPES AFFILIATION_IDS PERSON_IDS KEYWORDS
              (fun _ => 0) ["/api/apc/search"; "/api/person/<person_id>"]
              ["http://localhost:8010/api/status"] 0
  = Returns ([ "http://localhost:8010/api/status";
               "http://localhost:8010/api/apc/search?keywords=500";
               "http://localhost:8010/api/person/A5105622035";
               "http://localhost:8010/api/person/A5112693177";
               "http://localhost:8010/api/person/0000000347185957" ], 1) /\
  exists new,
    [ "http://localhost:8010/api/status";
      "http://localhost:8010/api/apc/search?keywords=500";
      "http://localhost:8010/api/person/A5105622035";
      "http://localhost:8010/api/person/A5112693177";
      "http://localhost:8010/api/person/0000000347185957" ]
    = (["http://localhost:8010/api/status"] ++ new)%list /\
    (forall u, In u new -> String.prefix BASE_URL u = true) /\
    0 <= 1 <= 0 + 2.
Proof.
  split; [vm_compute; reflexivity |].
  apply (expand_loop_extends BASE_URL AFFILIATION_TYPES AFFILIATION_IDS PERSON_IDS
           KEYWORDS (fun _ => 0) ["/api/apc/search"; "/api/person/<person_id>"]).
  vm_compute. reflexivity.
Defined.

(** A keyword map with an empty list for the template /api/empty, reached
    after a person template. *)
Lemma expand_empty_keywords_raises_witness :
  (<["/api/empty" := []]> KEYWORDS : gmap string (list string)) !! "/api/empty"
  = Some [] /\
  exists e, exn_cls e = IndexError /\
    expand_loop BASE_URL AFFILIATION_TYPES AFFILIATION_IDS PERSON_IDS
                (<["/api/empty" := []]> KEYWORDS) (fun _ => 0)
                (["/api/person/<person_id>"] ++ "/api/empty" :: ["/api/search/works"])
                [] 0
    = Raises e.
Proof.
  split; [vm_compute; reflexivity |].
  destruct (expand_empty_keywords_raises BASE_URL AFFILIATION_TYPES AFFILIATION_IDS
              PERSON_IDS (<["/api/empty" := []]> KEYWORDS) (fun _ => 0) "/api/empty")
    as [_ Hloop]; [reflexivity | reflexivity | reflexivity | vm_compute; reflexivity |].
  eapply Hloop. vm_compute. reflexivity.
Defined.

(** A template with the affiliation-id and the person-id placeholder. *)
Lemma expand_keeps_second_placeholder_witness :
  expand_endpoint BASE_URL AFFILIATION_TYPES AFFILIATION_IDS PERSON_IDS KEYWORDS
                  (fun _ => 0) "/api/x/<affiliation_id>/<person_id>" 0
  = Returns ([ "http://localhost:8010/api/x/01p9nak43/<person_id>";
               "http://localhost:8010/api/x/04j43p132/<person_id>";
               "http://localhost:8010/api/x/027nnzv91/<person_id>" ], 0) /\
  forall u,
    In u [ "http://localhost:8010/api/x/01p9nak43/<person_id>";
           "http://localhost:8010/api/x/04j43p132/<person_id>";
           "http://localhost:8010/api/x/027nnzv91/<person_id>" ] ->
    str_in "<person_id>" u = true.
Proof.
  split; [vm_compute; reflexivity |].
  destruct (expand_keeps_second_placeholder BASE_URL AFFILIATION_TYPES AFFILIATION_IDS
              PERSON_IDS KEYWORDS (fun _ => 0) "/api/x/<affiliation_id>/<person_id>"
              0 0 [ "http://localhost:8010/api/x/01p9nak43/<person_id>";
                    "http://localhost:8010/api/x/04j43p132/<person_id>";
                    "http://localhost:8010/api/x/027nnzv91/<person_id>" ])
    as [Hkeep _]; [vm_compute; reflexivity |].
  apply Hkeep; reflexivity.
Defined.

End BuildUrlMore.

(* ===================================================================== *)
(** * Further properties of the latency sampler *)
(* ===================================================================== *)

Module ResponseTimeMore.
Import PyStr Py PyNum BuildUrl ResponseTime ResponseTimeObs SamplerObs.
Import BuildUrlObs CsvObs BuildUrlProps ResponseTimeProps CsvProps.

Section Service.

Variable service : nat -> string -> reply.

(** The loop on request-level replies, with what it prints. *)
Lemma measure_loop_log (url : string) (repetitions : nat) :
  forall (range : list nat) (times : list Q) (w : world),
    (forall j, j < List.length range ->
               request_level (service (requests_sent w + j) url) = true) ->
    exists w',
      measure_loop service url repetitions range times w
      = Returns ((times ++ successes
                    (attempt_replies service url (requests_sent w) (List.length range)))%list,
                 w') /\
      requests_sent w' = requests_sent w + List.length range /\
      stdout w' = (stdout w
                   ++ attempt_lines service url repetitions range (requests_sent w))%list.
Proof.
  induction range as [|i range IH]; intros times w H.
  - exists w. cbn. rewrite !app_nil_r. repeat split; lia.
  - pose proof (H 0 ltac:(simpl; lia)) as H0. rewrite Nat.add_0_r in H0.
    assert (Hnext : forall w1, requests_sent w1 = S (requests_sent w) ->
              forall j, j < List.length range ->
                request_level (service (requests_sent w1 + j) url) = true).
    { intros w1 Hw1 j Hj. rewrite Hw1.
      specialize (H (S j) ltac:(simpl; lia)).
      now replace (S (requests_sent w) + j) with (requests_sent w + S j) by lia. }
    cbn [measure_loop List.length attempt_replies attempt_lines]. unfold timed_get.
    destruct (service (requests_sent w) url) as [elapsed status | e] eqn:Hr;
      cbn [request_level] in H0.
    + unfold iobind at 1. unfold print at 1. cbn [bind successes attempt_line].
      match goal with
      | |- context [measure_loop _ _ _ _ _ ?w1] =>
          destruct (IH (times ++ [elapsed])%list w1 (Hnext w1 eq_refl))
            as (w' & Hw & Hs & Ho)
      end.
      exists w'. cbn [requests_sent stdout] in *.
      rewrite Hw, Ho, <- !app_assoc. cbn [app]. repeat split. lia.
    + rewrite H0. unfold iobind at 1. unfold print at 1. cbn [bind successes attempt_line].
      match goal with
      | |- context [measure_loop _ _ _ _ _ ?w1] =>
          destruct (IH times w1 (Hnext w1 eq_refl)) as (w' & Hw & Hs & Ho)
      end.
      exists w'. cbn [requests_sent stdout] in *.
      rewrite Hw, Ho, <- !app_assoc. cbn [app]. repeat split. lia.
Qed.

(** X6.  On request-level replies the sampler prints exactly one line per
    attempt, in order, after what was printed before: the indexed line
    with the elapsed time and the status for a response, the error line
    with the message of the exception for a failure. *)
Theorem sampler_log (url : string) (repetitions : nat) (w : world) :
  (forall j, j < repetitions ->
             request_level (service (requests_sent w + j) url) = true) ->
  exists average_time w',
    measure_response_time service url repetitions w = Returns (average_time, w') /\
    stdout w' = (stdout w
                 ++ attempt_lines service url repetitions (seq 0 repetitions)
                                  (requests_sent w))%list.
Proof.
  intros H.
  destruct (measure_loop_log url repetitions (seq 0 repetitions) [] w)
    as (w' & Hw & _ & Ho); [now rewrite length_seq |].
  unfold measure_response_time, iobind. rewrite Hw. cbn [bind]. unfold ret.
  eexists. exists w'. split; [reflexivity | exact Ho].
Qed.

(** The loop at the first reply that is not request-level. *)
Lemma measure_loop_raises (url : string) (repetitions : nat) (e : exception) :
  is_RequestException (exn_cls e) = false ->
  forall (j : nat) (range : list nat) (times : list Q) (w : world),
    j < List.length range ->
    (forall i, i < j -> request_level (service (requests_sent w + i) url) = true) ->
    service (requests_sent w + j) url = Failure e ->
    measure_loop service url repetitions range times w = Raises e.
Proof.
  intros He. induction j as [|j IH]; intros range times w Hj Hbefore Hat.
  - destruct range as [|i range]; [simpl in Hj; lia |].
    rewrite Nat.add_0_r in Hat.
    now apply measure_loop_propagates.
  - destruct range as [|i range]; [simpl in Hj; lia |].
    pose proof (Hbefore 0 ltac:(lia)) as H0. rewrite Nat.add_0_r in H0.
    cbn [measure_loop]. unfold timed_get.
    destruct (service (requests_sent w) url) as [elapsed status | e0] eqn:Hr;
      cbn [request_level] in H0; [| rewrite H0];
      unfold iobind at 1; unfold print at 1; cbn [bind];
      (apply IH;
       [ simpl in Hj; lia
       | cbn [requests_sent]; intros m Hm; specialize (Hbefore (S m) ltac:(lia));
         now replace (S (requests_sent w) + m) with (requests_sent w + S m) by lia
       | cbn [requests_sent];
         now replace (S (requests_sent w) + j) with (requests_sent w + S j) by lia ]).
Qed.

(** X7.  The [except] clause names [RequestException] only.  When an
    attempt meets an exception outside that hierarchy, after attempts that
    got a response or a request failure, the sampler raises that exception:
    the remaining attempts are not made and no average is returned; and the
    calling loop raises it too, losing the records collected so far. *)
Theorem other_exception_escapes (url : string) (repetitions j : nat) (w : world)
    (e : exception) :
  j < repetitions ->
  (forall i, i < j -> request_level (service (requests_sent w + i) url) = true) ->
  service (requests_sent w + j) url = Failure e ->
  is_RequestException (exn_cls e) = false ->
  measure_response_time service url repetitions w = Raises e /\
  (repetitions = default_repetitions ->
   forall rest results, collect service (url :: rest) results w = Raises e).
Proof.
  intros Hj Hbefore Hat He.
  assert (Hm : measure_response_time service url repetitions w = Raises e).
  { unfold measure_response_time, iobind.
    rewrite (measure_loop_raises url repetitions e He j); try assumption;
      [reflexivity | now rewrite length_seq]. }
  split; [exact Hm |].
  intros -> rest results. cbn [collect]. unfold iobind at 1. now rewrite Hm.
Qed.

(** The calling loop on a service whose replies are all request-level. *)
Lemma collect_request_level :
  (forall n u, request_level (service n u) = true) ->
  forall (urls : list string) (results : list (string * Q)) (w : world),
    exists w',
      collect service urls results w
      = Returns ((results ++ expected_records service urls (requests_sent w))%list, w') /\
      requests_sent w' = requests_sent w + default_repetitions * List.length urls /\
      List.length (stdout w')
      = List.length (stdout w) + default_repetitions * List.length urls.
Proof.
  intros Hall. induction urls as [|u urls IH]; intros results w.
  - exists w. cbn. rewrite app_nil_r. repeat split; lia.
  - destruct (measure_response_time_request_level service u default_repetitions w)
      as (w1 & _ & Hm & Hs & Ho); [intros; apply Hall |].
    cbn [collect expected_records]. unfold iobind at 1. rewrite Hm. cbn [bind].
    destruct (average _) as [t|].
    + destruct (IH (results ++ [(u, t)])%list w1) as (w' & Hc & Hs' & Ho').
      exists w'. rewrite Hc, Hs, <- app_assoc. cbn [app List.length].
      repeat split; lia.
    + destruct (IH results w1) as (w' & Hc & Hs' & Ho').
      exists w'. rewrite Hc, Hs. cbn [List.length]. repeat split; lia.
Qed.

(** The sampler on request-level replies: what it returns, and what it
    prints. *)
Lemma measure_response_time_log (url : string) (repetitions : nat) (w : world) :
  (forall j, j < repetitions ->
             request_level (service (requests_sent w + j) url) = true) ->
  exists w',
    measure_response_time service url repetitions w
    = Returns (average (successes (attempt_replies service url (requests_sent w) repetitions)), w') /\
    requests_sent w' = requests_sent w + repetitions /\
    stdout w' = (stdout w
                 ++ attempt_lines service url repetitions (seq 0 repetitions)
                                  (requests_sent w))%list.
Proof.
  intros H.
  destruct (measure_loop_log url repetitions (seq 0 repetitions) [] w)
    as (w' & Hw & Hs & Ho); [now rewrite length_seq |].
  rewrite length_seq in *. cbn [app] in Hw.
  exists w'. split; [| split; assumption].
  unfold measure_response_time, iobind. rewrite Hw. cbn [bind]. unfold ret.
  now destruct (successes _).
Qed.

(** The calling loop on request-level replies: the records it collects and
    the lines it prints. *)
Lemma collect_log :
  (forall n u, request_level (service n u) = true) ->
  forall (urls : list string) (results : list (string * Q)) (w : world),
    exists w',
      collect service urls results w
      = Returns ((results ++ expected_records service urls (requests_sent w))%list, w') /\
      stdout w' = (stdout w ++ all_attempt_lines service urls (requests_sent w))%list.
Proof.
  intros Hall. induction urls as [|u urls IH]; intros results w.
  - exists w. cbn. rewrite !app_nil_r. now split.
  - destruct (measure_response_time_log u default_repetitions w)
      as (w1 & Hm & Hs & Ho); [intros; apply Hall |].
    cbn [collect expected_records all_attempt_lines]. unfold iobind at 1.
    rewrite Hm. cbn [bind].
    destruct (average _) as [t|].
    + destruct (IH (results ++ [(u, t)])%list w1) as (w' & Hc & Ho').
      exists w'. rewrite Hc, Ho', Ho, Hs, <- !app_assoc. now split.
    + destruct (IH results w1) as (w' & Hc & Ho').
      exists w'. rewrite Hc, Ho', Ho, Hs, <- !app_assoc. now split.
Qed.

(** X8.  The calling loop on a service whose replies are all responses or
    request failures: it does not raise; it issues three requests per URL,
    in the order of the list; and it adds, after the records it was given,
    one record for each URL that got at least one response, with the mean
    of the durations of its responses, and none for the others. *)
Theorem collect_samples_every_url :
  (forall n u, request_level (service n u) = true) ->
  forall (urls : list string) (results : list (string * Q)) (w : world),
    exists w',
      collect service urls results w
      = Returns ((results ++ expected_records service urls (requests_sent w))%list, w') /\
      requests_sent w' = requests_sent w + 3 * List.length urls.
Proof.
  intros Hall urls results w.
  destruct (collect_request_level Hall urls results w) as (w' & Hc & Hs & _).
  exists w'. split; [exact Hc | exact Hs].
Qed.

(** X9.  Whatever the service, when the calling loop returns, the records
    it was given come first, unchanged, and the URLs of the records it
    added are URLs of the list, each at most once per occurrence and in
    the order of the list. *)
Theorem collect_keeps_order (urls : list string) (results res : list (string * Q))
    (w w' : world) :
  collect service urls results w = Returns (res, w') ->
  exists new,
    res = (results ++ new)%list /\
    sublist (List.map fst new) urls.
Proof.
  revert results w. induction urls as [|u urls IH]; intros results w H.
  - cbn in H. inversion H; subst. exists []. rewrite app_nil_r.
    split; [reflexivity | constructor].
  - cbn [collect] in H. unfold iobind at 1 in H.
    destruct (measure_response_time service u default_repetitions w)
      as [[[t|] w1] | e]; cbn [bind] in H; [| | discriminate].
    + destruct (IH _ _ H) as (new & -> & Hsub).
      exists ((u, t) :: new). rewrite <- app_assoc. split; [reflexivity |].
      cbn [List.map fst]. now apply sublist_skip.
    + destruct (IH _ _ H) as (new & -> & Hsub).
      exists new. split; [reflexivity |]. now apply sublist_cons.
Qed.

End Service.

(** Three attempts against the flaky service. *)
Lemma sampler_log_witness :
  (forall j, j < 3 ->
     request_level (flaky_service (requests_sent (World 0 ["start"]) + j)
                                  "http://localhost:8010/api/search/works?keywords=ai") = true) /\
  exists average_time w',
    measure_response_time flaky_service
      "http://localhost:8010/api/search/works?keywords=ai" 3 (World 0 ["start"])
    = Returns (average_time, w') /\
    stdout w'
    = [ "start";
        "[1/3] http://localhost:8010/api/search/works?keywords=ai -> 0.100s (status 200)";
        "Error con http://localhost:8010/api/search/works?keywords=ai: Read timed out.";
        "[3/3] http://localhost:8010/api/search/works?keywords=ai -> 0.300s (status 200)" ].
Proof.
  assert (H : forall j, j < 3 ->
     request_level (flaky_service (requests_sent (World 0 ["start"]) + j)
                                  "http://localhost:8010/api/search/works?keywords=ai") = true).
  { intros j Hj. destruct j as [|[|[|j]]]; [reflexivity.. | lia]. }
  split; [exact H |].
  destruct (sampler_log flaky_service
              "http://localhost:8010/api/search/works?keywords=ai" 3
              (World 0 ["start"]) H) as (a & w' & Hm & Ho).
  exists a, w'. split; [exact Hm |]. rewrite Ho. reflexivity.
Defined.

(** The first request meets a [ValueError]. *)
Lemma other_exception_escapes_witness :
  0 < 3 /\
  first_fails ValueError (requests_sent (World 0 []) + 0) "http://localhost:8010/api/apc/search?keywords=500"
  = Failure (Exception ValueError "boom") /\
  is_RequestException (exn_cls (Exception ValueError "boom")) = false /\
  measure_response_time (first_fails ValueError)
    "http://localhost:8010/api/apc/search?keywords=500" 3 (World 0 [])
  = Raises (Exception ValueError "boom") /\
  forall rest results,
    collect (first_fails ValueError)
      ("http://localhost:8010/api/apc/search?keywords=500" :: rest) results (World 0 [])
    = Raises (Exception ValueError "boom").
Proof.
  split; [lia |]. split; [reflexivity |]. split; [reflexivity |].
  destruct (other_exception_escapes (first_fails ValueError)
              "http://localhost:8010/api/apc/search?keywords=500" 3 0 (World 0 [])
              (Exception ValueError "boom"))
    as [Hm Hc]; [lia | intros i Hi; lia | reflexivity | reflexivity |].
  split; [exact Hm | exact (Hc eq_refl)].
Defined.

(** Two URLs against the flaky service. *)
Lemma collect_samples_every_url_witness :
  (forall n u, request_level (flaky_service n u) = true) /\
  exists w',
    collect flaky_service
      [ "http://localhost:8010/api/person/A5105622035";
        "http://localhost:8010/api/person/A5112693177" ] [] (World 0 [])
    = Returns (([] ++ expected_records flaky_service
                        [ "http://localhost:8010/api/person/A5105622035";
                          "http://localhost:8010/api/person/A5112693177" ] 0)%list, w') /\
    requests_sent w' = 0 + 3 * 2.
Proof.
  assert (H : forall n u, request_level (flaky_service n u) = true).
  { intros n u. unfold flaky_service. now destruct (Nat.eqb n 1). }
  split; [exact H |].
  exact (collect_samples_every_url flaky_service H
           [ "http://localhost:8010/api/person/A5105622035";
             "http://localhost:8010/api/person/A5112693177" ] [] (World 0 [])).
Defined.

(** Two URLs against a service that refuses everything: no record. *)
Lemma collect_keeps_order_witness :
  collect dead_service
    [ "http://localhost:8010/api/person/A5105622035";
      "http://localhost:8010/api/person/A5112693177" ]
    [("http://localhost:8010/api/apc/search?keywords=500", (1 # 4)%Q)] (World 0 [])
  = Returns
      ([("http://localhost:8010/api/apc/search?keywords=500", (1 # 4)%Q)],
       World 6
         [ "Error con http://localhost:8010/api/person/A5105622035: Connection refused";
           "Error con http://localhost:8010/api/person/A5105622035: Connection refused";
           "Error con http://localhost:8010/api/person/A5105622035: Connection refused";
           "Error con http://localhost:8010/api/person/A5112693177: Connection refused";
           "Error con http://localhost:8010/api/person/A5112693177: Connection refused";
           "Error con http://localhost:8010/api/person/A5112693177: Connection refused" ]) /\
  exists new,
    [("http://localhost:8010/api/apc/search?keywords=500", (1 # 4)%Q)]
    = ([("http://localhost:8010/api/apc/search?keywords=500", (1 # 4)%Q)] ++ new)%list /\
    sublist (List.map fst new)
            [ "http://localhost:8010/api/person/A5105622035";
              "http://localhost:8010/api/person/A5112693177" ].
Proof.
  assert (H : collect dead_service
    [ "http://localhost:8010/api/person/A5105622035";
      "http://localhost:8010/api/person/A5112693177" ]
    [("http://localhost:8010/api/apc/search?keywords=500", (1 # 4)%Q)] (World 0 [])
  = Returns
      ([("http://localhost:8010/api/apc/search?keywords=500", (1 # 4)%Q)],
       World 6
         [ "Error con http://localhost:8010/api/person/A5105622035: Connection refused";
           "Error con http://localhost:8010/api/person/A5105622035: Connection refused";
           "Error con http://localhost:8010/api/person/A5105622035: Connection refused";
           "Error con http://localhost:8010/api/person/A5112693177: Connection refused";
           "Error con http://localhost:8010/api/person/A5112693177: Connection refused";
           "Error con http://localhost:8010/api/person/A5112693177: Connection refused" ]))
    by (vm_compute; reflexivity).
  split; [exact H |].
  exact (collect_keeps_order dead_service _ _ _ _ _ H).
Defined.

(** The summary: one line per record, in order. *)
Lemma print_summary_log (results : list (string * Q)) (w : world) :
  print_summary results w
  = Returns (tt, {| requests_sent := requests_sent w;
                    stdout := stdout w ++ List.map summary_line results |}).
Proof.
  revert w. induction results as [|r results IH]; intros w.
  - cbn. rewrite app_nil_r. now destruct w.
  - cbn [print_summary]. unfold iobind, print. cbn [bind].
    rewrite IH. cbn [requests_sent stdout List.map].
    now rewrite <- app_assoc.
Qed.

(** X10.  The script against a service whose replies are all responses or
    request failures, whatever the random source and the state of the file:
    it ends normally.  The text it leaves is the old text, or the header
    row [url,average_time] when there was no file, followed by one row
    (URL cell, comma, average with three decimals, CR LF) for each of the
    22 URLs of the generator that got a response, in the order of the
    generator.  It prints, for each of the 22 URLs in order, the lines of
    its three attempts (the indexed line with the time and the status, or
    the error line), then the heading of the summary, then one summary line
    per record. *)
Theorem main_request_level (service : nat -> string -> reply) :
  (forall n u, request_level (service n u) = true) ->
  forall (rnd : nat -> nat) (file : option string),
    exists urls,
      expand_endpoints rnd = Returns urls /\
      List.length urls = 22 /\
      main rnd service file
      = Returns (file_head file ++ rows_text (expected_records service urls 0),
                 (all_attempt_lines service urls 0
                    ++ [summary_heading]
                    ++ List.map summary_line (expected_records service urls 0))%list).
Proof.
  intros Hall rnd file.
  pose proof (expand_endpoints_generated rnd) as Hu.
  assert (Hlen : List.length (generated (pick rnd 0 APC_KEYWORDS)
                                        (pick rnd 1 PERSON_KEYWORDS)
                                        (pick rnd 2 WORKS_KEYWORDS)) = 22)
    by reflexivity.
  revert Hu Hlen. generalize (generated (pick rnd 0 APC_KEYWORDS)
                                        (pick rnd 1 PERSON_KEYWORDS)
                                        (pick rnd 2 WORKS_KEYWORDS)).
  intros urls Hu Hlen.
  destruct (collect_log service Hall urls [] (World 0 [])) as (w1 & Hc & Ho).
  cbn [requests_sent stdout app] in Hc, Ho.
  exists urls. split; [exact Hu |]. split; [exact Hlen |].
  unfold main. rewrite Hu. cbn [bind]. rewrite Hc. cbn [bind].
  unfold iobind, print. cbn [bind]. rewrite print_summary_log.
  cbn [bind stdout]. rewrite Ho, <- app_assoc.
  do 2 f_equal.
  destruct file as [text|]; cbn [append_results file_head].
  - now rewrite record_lines_text.
  - now rewrite header_line_text, record_lines_text.
Qed.

(** The flaky service answers or times out: rows for all 22 URLs, the
    first of which took a fifth of a second on average. *)
Lemma main_request_level_witness :
  (forall n u, request_level (flaky_service n u) = true) /\
  exists urls text log,
    expand_endpoints (fun _ => 0) = Returns urls /\
    List.length urls = 22 /\
    main (fun _ => 0) flaky_service None = Returns (text, log) /\
    String.prefix
      ("url,average_time" ++ CRLF ++
       "http://localhost:8010/api/affiliation/institution/01p9nak43/research/products,0.200"
       ++ CRLF)
      text = true /\
    List.length log = 66 + 1 + 22 /\
    firstn 3 log
    = [ "[1/3] http://localhost:8010/api/affiliation/institution/01p9nak43/research/products -> 0.100s (status 200)";
        "Error con http://localhost:8010/api/affiliation/institution/01p9nak43/research/products: Read timed out.";
        "[3/3] http://localhost:8010/api/affiliation/institution/01p9nak43/research/products -> 0.300s (status 200)" ].
Proof.
  assert (H : forall n u, request_level (flaky_service n u) = true).
  { intros n u. unfold flaky_service. now destruct (Nat.eqb n 1). }
  split; [exact H |].
  destruct (main_request_level flaky_service H (fun _ => 0) None)
    as (urls & Hu & Hlen & Hmain).
  eexists urls, _, _. split; [exact Hu |]. split; [exact Hlen |].
  split; [exact Hmain |].
  pose proof Hu as Hurls. rewrite expand_endpoints_generated in Hurls.
  injection Hurls as Hurls. rewrite <- Hurls.
  split; [vm_compute; reflexivity |].
  split; vm_compute; reflexivity.
Defined.

End ResponseTimeMore.

(* ===================================================================== *)
(** * Further properties of the reporter's derived columns *)
(* ===================================================================== *)

Module ReportMore.
Import PyStr Py PyNum BuildUrl Report BuildUrlObs.
Import PyStrFacts BuildUrlProps BuildUrlMore RoundTripProps.

(** A text that holds the separator splits into at least two pieces. *)
Lemma split_from_two (c : ascii) (sep s : string) :
  str_in (String c sep) s = true ->
  exists p q rest, split_from (String c sep) s 0 = p :: q :: rest.
Proof.
  induction s as [|d s IH]; intros H; [cbn in H; discriminate |].
  cbn [str_in] in H. cbn [split_from].
  destruct (String.prefix (String c sep) (String d s)).
  - destruct (split_from (String c sep) s (String.length (String c sep) - 1))
      as [|q rest] eqn:Hs; [now apply split_from_nonempty in Hs |].
    now exists "", q, rest.
  - cbn [orb] in H. destruct (IH H) as (p & q & rest & ->).
    now exists (String d p), q, rest.
Qed.

(** X11.  [extract_keyword] gives no keyword exactly when the endpoint does
    not hold [keywords=]: the subscripts it takes never fail, so its
    [except] branch is never taken; and a keyword it gives holds no ['&']. *)
Theorem extract_keyword_spec (endpoint : string) :
  (extract_keyword endpoint = None <-> str_in "keywords=" endpoint = false) /\
  (forall kw, extract_keyword endpoint = Some kw -> free_of "&" kw = true).
Proof.
  unfold extract_keyword, split.
  destruct (str_in "keywords=" endpoint) eqn:Hin.
  - destruct (split_from_two "k" "eywords=" endpoint Hin) as (p & q & rest & ->).
    destruct (split_from_first "&" q) as (kw & kws & -> & Hfree & _).
    split; [split; discriminate |].
    intros kw' Hkw. now inversion Hkw; subst.
  - split; [split; reflexivity | discriminate].
Qed.

(** X12.  The [has_parameters] column and the [base_endpoint] column agree:
    a row has parameters exactly when its base endpoint differs from its
    clean endpoint. *)
Theorem has_parameters_iff (m : measurement) :
  has_parameters (clean_measurement m) = true
  <-> base_endpoint (clean_measurement m) <> clean_endpoint (clean_measurement m).
Proof.
  unfold clean_measurement.
  cbn [has_parameters base_endpoint clean_endpoint].
  set (ce := replace (url m) API_PREFIX "").
  destruct (extract_base_endpoint_spec ce) as [Hfree [Heq | [query Heq]]].
  - rewrite <- Heq. rewrite (str_in_free "?" "" ce) by (rewrite Heq; exact Hfree).
    split; [discriminate | congruence].
  - split.
    + intros _ Hsame. rewrite Hsame in Heq.
      apply (f_equal String.length) in Heq.
      rewrite !length_append in Heq. cbn [String.length] in Heq. lia.
    + intros _. rewrite Heq. apply str_in_app_r.
      apply str_in_prefix. apply (prefix_refl_app "?" query).
Qed.

(** The number of pieces of a split at a character is one more than the
    number of occurrences of the character. *)
Lemma split_from_count (c : ascii) (s : string) :
  List.length (split_from (String c "") s 0) = count_char c s + 1.
Proof.
  induction s as [|d s IH]; [reflexivity |].
  cbn [split_from count_char].
  destruct (Ascii.eqb_spec c d) as [<- | Hne].
  - replace (String.prefix (String c "") (String c s)) with true
      by (symmetry; exact (prefix_refl_app (String c "") s)).
    cbn [String.length Nat.sub List.length]. rewrite IH. lia.
  - rewrite (prefix_head_ne c d "" s Hne).
    destruct (split_from (String c "") s 0) as [|p ps] eqn:Hs;
      [now apply split_from_nonempty in Hs |].
    cbn [List.length] in *. lia.
Qed.

(** X13.  The [endpoint_depth] column is the number of pieces the clean
    endpoint splits into at ['/'], empty pieces included. *)
Theorem endpoint_depth_segments (m : measurement) :
  endpoint_depth (clean_measurement m)
  = List.length (split_pieces (clean_endpoint (clean_measurement m)) "/").
Proof.
  unfold clean_measurement, split_pieces, split.
  cbn [endpoint_depth clean_endpoint]. now rewrite split_from_count.
Qed.

(** X14.  The loader does not anchor the prefix it removes.  A URL that
    does not hold [http://localhost:8010/api/] is its own clean endpoint;
    and the text is removed wherever it stands: a URL made of a stretch
    without ['h'], the prefix, and a rest that does not hold the prefix has
    the stretch followed by the rest as its clean endpoint. *)
Theorem clean_endpoint_unanchored (u : string) (t : Q) :
  (str_in API_PREFIX u = false ->
   clean_endpoint (clean_measurement (Measurement u t)) = u) /\
  (forall a b,
      u = a ++ API_PREFIX ++ b ->
      free_of "h" a = true ->
      str_in API_PREFIX b = false ->
      clean_endpoint (clean_measurement (Measurement u t)) = a ++ b).
Proof.
  unfold clean_measurement. cbn [clean_endpoint url]. split.
  - intros H. unfold replace, API_PREFIX. now apply replace_from_absent.
  - intros a b -> Ha Hb. unfold replace, API_PREFIX in *.
    rewrite (replace_from_app_free "h" _ "" a _ Ha).
    rewrite (replace_from_match "h" "ttp://localhost:8010/api/" "" b).
    now rewrite replace_from_absent.
Qed.

(** X15.  From the generator to the reporter: whatever the random source,
    the generator returns the 22 URLs of which the tenth ends with the
    first keyword [random.choice] drew (among the apc keywords), the 21st
    with the second (among the person keywords) and the 22nd with the third
    (among the works keywords); the [keyword] column of these URLs holds
    exactly that drawn keyword for each of the three and nothing for the
    other 19; and the [has_parameters] column marks the same three. *)
Theorem generated_keywords_recovered (rnd : nat -> nat) (t : Q) :
  expand_endpoints rnd
  = Returns (generated (pick rnd 0 APC_KEYWORDS) (pick rnd 1 PERSON_KEYWORDS)
                       (pick rnd 2 WORKS_KEYWORDS)) /\
  List.map (fun u => keyword (clean_measurement (Measurement u t)))
           (generated (pick rnd 0 APC_KEYWORDS) (pick rnd 1 PERSON_KEYWORDS)
                      (pick rnd 2 WORKS_KEYWORDS))
  = [ None; None; None; None; None; None; None; None; None;
      Some (pick rnd 0 APC_KEYWORDS);
      None; None; None; None; None; None; None; None; None; None;
      Some (pick rnd 1 PERSON_KEYWORDS); Some (pick rnd 2 WORKS_KEYWORDS) ] /\
  List.map (fun u => has_parameters (clean_measurement (Measurement u t)))
           (generated (pick rnd 0 APC_KEYWORDS) (pick rnd 1 PERSON_KEYWORDS)
                      (pick rnd 2 WORKS_KEYWORDS))
  = [ false; false; false; false; false; false; false; false; false; true;
      false; false; false; false; false; false; false; false; false; false;
      true; true ].
Proof.
  split; [apply expand_endpoints_generated |].
  name_draws rnd apc person works Ha Hp Hw.
  one_of_four Ha; one_of_four Hp; one_of_four Hw; split; vm_compute; reflexivity.
Qed.

(** X16.  Whatever the random source, the [endpoint_type] column of the 22
    generated URLs is search for 13 of them (every URL whose path holds
    "search", those with "research" included), apc for 6 and person for 3;
    no generated URL is classified as affiliation or other. *)
Theorem generated_categories (rnd : nat -> nat) (t : Q) :
  exists urls,
    expand_endpoints rnd = Returns urls /\
    List.map (fun u => endpoint_type (clean_measurement (Measurement u t))) urls
    = [ "search"; "search"; "search"; "apc"; "apc"; "apc"; "apc"; "apc"; "apc";
        "search"; "person"; "person"; "person"; "search"; "search"; "search";
        "search"; "search"; "search"; "search"; "search"; "search" ] /\
    Forall (fun u => endpoint_type (clean_measurement (Measurement u t)) <> "affiliation" /\
                     endpoint_type (clean_measurement (Measurement u t)) <> "other") urls.
Proof.
  exists (generated (pick rnd 0 APC_KEYWORDS) (pick rnd 1 PERSON_KEYWORDS)
                    (pick rnd 2 WORKS_KEYWORDS)).
  split; [apply expand_endpoints_generated |].
  name_draws rnd apc person works Ha Hp Hw.
  assert (Htypes :
    List.map (fun u => endpoint_type (clean_measurement (Measurement u t)))
             (generated apc person works)
    = [ "search"; "search"; "search"; "apc"; "apc"; "apc"; "apc"; "apc"; "apc";
        "search"; "person"; "person"; "person"; "search"; "search"; "search";
        "search"; "search"; "search"; "search"; "search"; "search" ]).
  { one_of_four Ha; one_of_four Hp; one_of_four Hw; vm_compute; reflexivity. }
  split; [exact Htypes |].
  apply (List.Forall_map
           (fun u => endpoint_type (clean_measurement (Measurement u t)))
           (fun c => c <> "affiliation" /\ c <> "other")).
  rewrite Htypes. repeat constructor; discriminate.
Qed.

End ReportMore.

(* ===================================================================== *)
(** * Further properties of the CSV file *)
(* ===================================================================== *)

Module CsvMore.
Import PyStr Py PyNum BuildUrl ResponseTime Report.
Import BuildUrlObs CsvObs PyStrFacts PyNumFacts CsvProps RoundTripProps.

(** X17.  Records whose URLs are made of printable ASCII characters, hold a
    [':'] (so that the reader takes none of them for a missing value, a
    number or a truth value) and hold no comma and no quote, written by any
    number of runs of which the first finds no file: [pd.read_csv] gives
    back one row per record, in order, with the URL as it was and the
    average rounded to the thousandth. *)
Theorem read_csv_round_trip (first : list (string * Q)) (batches : list (list (string * Q))) :
  Forall (fun r => plain (fst r) = true /\ text_cell (fst r) = true)
         (concat (first :: batches)) ->
  exists text,
    accumulate None (first :: batches) = Some text /\
    read_csv text = Some (List.map stored (concat (first :: batches))).
Proof.
  intros Hpl. exists (append_results None (concat (first :: batches))).
  split; [apply accumulate_none | now apply read_csv_written].
Qed.

(** Two runs with URLs of another service. *)
Lemma read_csv_round_trip_witness :
  Forall (fun r => plain (fst r) = true /\ text_cell (fst r) = true)
         (concat [ [("https://example.org/a b?x=1", (1 # 7)%Q)];
                   [("ftp://host/file", (-1 # 2000)%Q)] ]) /\
  exists text,
    accumulate None [ [("https://example.org/a b?x=1", (1 # 7)%Q)];
                      [("ftp://host/file", (-1 # 2000)%Q)] ] = Some text /\
    read_csv text
    = Some [ Measurement "https://example.org/a b?x=1" (143 # 1000);
             Measurement "ftp://host/file" (0 # 1000) ].
Proof.
  assert (H : Forall (fun r => plain (fst r) = true /\ text_cell (fst r) = true)
         (concat [ [("https://example.org/a b?x=1", (1 # 7)%Q)];
                   [("ftp://host/file", (-1 # 2000)%Q)] ])).
  { repeat constructor. }
  split; [exact H |].
  exact (read_csv_round_trip _ _ H).
Defined.

(** Rows without a quote character are rows of unquoted URLs. *)
Lemma record_lines_unquoted (results : list (string * Q)) :
  free_of dquote (record_lines results) = true ->
  Forall (fun r => plain (fst r) = true) results.
Proof.
  induction results as [|r results IH]; intros H; [constructor |].
  cbn [record_lines] in H. rewrite free_of_app in H.
  apply andb_prop in H as [Hr Hrest].
  constructor; [| now apply IH].
  unfold record_line, csv_line in Hr. cbn [join_cells] in Hr.
  rewrite !free_of_app in Hr. apply andb_prop in Hr as [Hr _].
  apply andb_prop in Hr as [Hr _].
  unfold plain, csv_cell in *.
  destruct (needs_quote (fst r)); [| reflexivity].
  rewrite free_of_cons, Ascii.eqb_refl in Hr. discriminate.
Qed.

Lemma format_3f_not_column_name (q : Q) :
  String.eqb (format_3f q) "url" = false /\
  String.eqb (format_3f q) "average_time" = false.
Proof.
  split.
  - destruct (String.eqb_spec (format_3f q) "url") as [Heq |]; [| reflexivity].
    pose proof (format_3f_free "u" q eq_refl ltac:(discriminate) ltac:(discriminate)) as Hf.
    rewrite Heq in Hf. discriminate.
  - destruct (String.eqb_spec (format_3f q) "average_time") as [Heq |]; [| reflexivity].
    pose proof (format_3f_free "a" q eq_refl ltac:(discriminate) ltac:(discriminate)) as Hf.
    rewrite Heq in Hf. discriminate.
Qed.

(** X18.  A file that exists but is empty gets no header row, since the
    header is written only when the file does not exist; the loader then
    takes the first record for the header, finds no [url] and
    [average_time] columns, and loads nothing, whatever the records. *)
Theorem headerless_file_unloadable (results : list (string * Q)) :
  append_results (Some "") results = record_lines results /\
  load_and_clean_data (append_results (Some "") results) = None.
Proof.
  split; [reflexivity |].
  unfold load_and_clean_data, read_csv.
  change (append_results (Some "") results) with (record_lines results).
  destruct (free_of "034" (record_lines results)) eqn:Hq; [| reflexivity].
  pose proof (record_lines_unquoted results Hq) as Hpl.
  change (split_pieces (record_lines results) line_end)
    with (split_from line_end (record_lines results) 0).
  rewrite (record_lines_split results Hpl), filter_line_bodies.
  destruct results as [|r results]; [reflexivity |].
  cbn [List.map]. inversion Hpl as [|r' rs' Hr Hrs]; subst.
  destruct (plain_free _ Hr) as (Hc & _ & _ & _).
  unfold split_pieces, split, line_body.
  rewrite (csv_cell_plain _ Hr). unfold comma in *.
  change (String "," (format_3f (snd r)))
    with (String "," "" ++ format_3f (snd r)).
  rewrite (split_from_app_free "," "" (fst r) (format_3f (snd r)) Hc).
  rewrite split_from_free
    by (apply format_3f_free; [reflexivity | discriminate | discriminate]).
  cbn [column_index].
  destruct (format_3f_not_column_name (snd r)) as [Hu Ha]. rewrite Hu, Ha.
  destruct (String.eqb_spec (fst r) "url") as [-> |]; reflexivity.
Qed.

End CsvMore.

(* ===================================================================== *)
(** * Properties of the time distribution and of the slowest endpoints *)
(* ===================================================================== *)

From Stdlib Require Import Lqa Sorted Permutation.

Module ReportStatsProps.
Import PyStr Report ReportStats ReportStatsObs.

(** The comparisons of a time with the six finite edges. *)
Ltac compare_edges t :=
  repeat match goal with
         | |- context [Qle_bool ?q t] =>
             let H := fresh "H" in
             destruct (Qle_bool q t) eqn:H;
             [ apply Qle_bool_iff in H
             | assert (~ (q <= t)%Q) by (rewrite <- Qle_bool_iff; congruence); clear H ]
         end.

(** X19.  The bins of [response_time_distribution] are closed on the left
    and open on the right: a time is in the one range whose lower edge it
    reaches and whose upper edge it stays below, an edge value belonging to
    the range it opens; at 5 seconds and above the range is [5s+]; a
    negative time is in no range. *)
Theorem time_range_bins (t : Q) :
  ((t < 0)%Q -> time_range t = None) /\
  ((0 <= t)%Q -> (t < 5 # 100)%Q -> time_range t = Some "0-50ms") /\
  ((5 # 100 <= t)%Q -> (t < 1 # 10)%Q -> time_range t = Some "50-100ms") /\
  ((1 # 10 <= t)%Q -> (t < 5 # 10)%Q -> time_range t = Some "100-500ms") /\
  ((5 # 10 <= t)%Q -> (t < 1)%Q -> time_range t = Some "500ms-1s") /\
  ((1 <= t)%Q -> (t < 5)%Q -> time_range t = Some "1-5s") /\
  ((5 <= t)%Q -> time_range t = Some "5s+").
Proof.
  unfold time_range, bins, labels. cbn [cut edge_le lt_edge].
  compare_edges t; cbn [andb negb]; repeat split; intros; try reflexivity; lra.
Qed.

Lemma time_range_cases (t : Q) :
  (Qle_bool 0 t = false /\ time_range t = None) \/
  (Qle_bool 0 t = true /\ exists label, In label labels /\ time_range t = Some label).
Proof.
  unfold time_range, bins, labels. cbn [cut edge_le lt_edge].
  destruct (Qle_bool 0 t) eqn:H0; [right | left].
  - split; [reflexivity |]. apply Qle_bool_iff in H0.
    compare_edges t; cbn [andb negb]; try lra;
      eexists; (split; [| reflexivity]); cbn [In]; tauto.
  - split; [reflexivity |].
    assert (~ (0 <= t)%Q) by (rewrite <- Qle_bool_iff; congruence).
    compare_edges t; cbn [andb negb]; try reflexivity; lra.
Qed.

Lemma count_label_cons (label : string) (c : option string) (cells : list (option string)) :
  count_label label (c :: cells)
  = match c with
    | Some l => if String.eqb l label then 1 else 0
    | None => 0
    end + count_label label cells.
Proof.
  unfold count_label. cbn [List.filter].
  destruct c as [l|]; [destruct (String.eqb l label) |]; reflexivity.
Qed.

(** X20.  The distribution lists the six ranges, in the order of the bins
    and whatever the table holds, also those that no row is in; and its
    counts add up to the number of rows whose time is not negative. *)
Theorem response_time_distribution_counts (times : list Q) :
  List.map fst (response_time_distribution times) = labels /\
  list_sum (List.map snd (response_time_distribution times))
  = List.length (List.filter (fun t => Qle_bool 0 t) times).
Proof.
  split; [reflexivity |].
  induction times as [|t times IH]; [reflexivity |].
  unfold response_time_distribution, labels in *.
  unfold list_sum in *. cbn [List.map fold_right snd List.filter] in *.
  rewrite !count_label_cons.
  destruct (time_range_cases t) as [[H0 ->] | [H0 (label & Hin & ->)]]; rewrite H0.
  - lia.
  - cbn [List.length]. unfold labels in Hin. cbn [In] in Hin.
    repeat (destruct Hin as [<- | Hin]; [simpl; lia |]).
    contradiction.
Qed.

(** ** The slowest endpoints *)

Lemma insert_desc_perm (row : clean_row) (sorted : list clean_row) :
  Permutation (insert_desc row sorted) (row :: sorted).
Proof.
  induction sorted as [|r sorted IH]; [reflexivity |].
  cbn [insert_desc].
  destruct (Qle_bool (row_average_time r) (row_average_time row)); [reflexivity |].
  rewrite IH. apply perm_swap.
Qed.

Lemma sort_desc_perm (rows : list clean_row) : Permutation (sort_desc rows) rows.
Proof.
  induction rows as [|r rows IH]; [reflexivity |].
  unfold sort_desc in *. cbn [fold_right].
  rewrite insert_desc_perm. now constructor.
Qed.

Lemma insert_desc_sorted (row : clean_row) (sorted : list clean_row) :
  StronglySorted slower sorted -> StronglySorted slower (insert_desc row sorted).
Proof.
  induction 1 as [|r sorted Hs IH Hall]; [repeat constructor |].
  cbn [insert_desc].
  destruct (Qle_bool (row_average_time r) (row_average_time row)) eqn:Hle.
  - apply Qle_bool_iff in Hle.
    constructor; [now constructor |].
    constructor; [exact Hle |].
    eapply List.Forall_impl; [| exact Hall].
    intros b Hb. unfold slower in *. lra.
  - assert (Hlt : ~ (row_average_time r <= row_average_time row)%Q)
      by (rewrite <- Qle_bool_iff; congruence).
    constructor; [exact IH |].
    eapply Permutation_Forall; [symmetry; apply insert_desc_perm |].
    constructor; [unfold slower; lra | exact Hall].
Qed.

Lemma sort_desc_sorted (rows : list clean_row) : StronglySorted slower (sort_desc rows).
Proof.
  induction rows as [|r rows IH]; [constructor |].
  unfold sort_desc in *. cbn [fold_right]. now apply insert_desc_sorted.
Qed.

(** A sorted list cut in two: both parts are sorted, and the first part is
    above the second. *)
Lemma sorted_cut (n : nat) (l : list clean_row) :
  StronglySorted slower l ->
  StronglySorted slower (firstn n l) /\
  (forall a b, In a (firstn n l) -> In b (skipn n l) -> slower a b).
Proof.
  intros Hs. revert n. induction Hs as [|r l Hs IH Hall]; intros n.
  - rewrite firstn_nil, skipn_nil. split; [constructor | intros a b []].
  - destruct n as [|n]; [split; [constructor | intros a b []] |].
    destruct (IH n) as [Hfirst Hcut]. cbn [firstn skipn]. split.
    + constructor; [exact Hfirst |].
      apply List.Forall_forall. intros b Hb.
      rewrite List.Forall_forall in Hall. apply Hall.
      rewrite <- (firstn_skipn n l). apply in_or_app. now left.
    + intros a b [<- | Ha] Hb; [| now apply Hcut].
      rewrite List.Forall_forall in Hall. apply Hall.
      rewrite <- (firstn_skipn n l). apply in_or_app. now right.
Qed.

(** X21.  [find_slowest_endpoints] keeps [n] rows, or all of them when the
    table has fewer; it lists them from the slowest on; they are rows of
    the table, each taken once; and no row left out is slower than a row
    kept. *)
Theorem find_slowest_endpoints_spec (rows : list clean_row) (n : nat) :
  List.length (find_slowest_endpoints rows n) = Nat.min n (List.length rows) /\
  StronglySorted (fun a b : slow_row => (snd (fst b) <= snd (fst a))%Q)
                 (find_slowest_endpoints rows n) /\
  exists kept rest,
    find_slowest_endpoints rows n = List.map project kept /\
    Permutation rows (kept ++ rest) /\
    forall a b, In a kept -> In b rest ->
      (row_average_time b <= row_average_time a)%Q.
Proof.
  unfold find_slowest_endpoints, nlargest.
  destruct (sorted_cut n (sort_desc rows) (sort_desc_sorted rows)) as [Hfirst Hcut].
  split; [| split].
  - rewrite length_map, length_firstn.
    now rewrite (Permutation_length (sort_desc_perm rows)).
  - clear Hcut. induction Hfirst as [|r l Hl IH Hall]; [constructor |].
    cbn [List.map]. constructor; [exact IH |].
    apply List.Forall_map. eapply List.Forall_impl; [| exact Hall].
    intros b Hb. exact Hb.
  - exists (firstn n (sort_desc rows)), (skipn n (sort_desc rows)).
    split; [reflexivity |]. split; [| exact Hcut].
    rewrite firstn_skipn. symmetry. apply sort_desc_perm.
Qed.




End ReportStatsProps.
